(** * ESG risk dashboard: the profile pipeline of [src/esg], embedded and verified

    The development follows the Python sources file by file:
    [esg/utils.py], [esg/keywords.py], [esg/services.py], [esg/clients.py],
    [esg/history.py] and the search handler of [dashboard/views.py].  Part I
    holds the embedding (definitions only), Part II the properties of the
    specification, Part III further properties of the code: error behaviour,
    invariants of the results, the cache and the search history.

    Conventions of the embedding.
    - A Python [str] is a Rocq [string] whose characters are read as the code
      points U+0000..U+00FF; [isspace], [lower] and the UTF-8 encoder are the
      Python ones restricted to that range.
    - A Python [float] is a binary64 primitive float; [int] is [Z].
    - A raised exception is a value [Raise e] of the [result] type.
    - Library calls that read or print free text ([json.loads],
      [dateutil.parser.parse], [float] on a string, [strftime],
      [datetime.isoformat]) are the methods of the class [PyLib].
    - The cache, the history table and the answers of the oracle are explicit
      arguments: a call takes the cache and the table as it finds them and
      returns them as it leaves them. *)

From Stdlib Require Import ZArith NArith Ascii String Bool Lia.
From Stdlib Require Import Floats.PrimFloat Floats.SpecFloat Floats.FloatOps
  Floats.FloatAxioms.
From Stdlib Require Import Sorting.Sorted Sorting.Permutation.
From stdpp Require Import base gmap sets list strings.

Set Default Proof Using "Type".
Set Warnings "-register-all".

(** ** Part I.  The embedding *)

(** *** Exceptions *)

Inductive exn : Type :=
| ESGServiceError
| JSONDecodeError
| AttributeError
| TypeError
| ValueError
| KeyError
| OverflowError.

Inductive result (A : Type) : Type :=
| Ok (a : A)
| Raise (e : exn).

Arguments Ok {A} a.
Arguments Raise {A} e.

Definition rbind {A B : Type} (r : result A) (k : A -> result B) : result B :=
  match r with
  | Ok a => k a
  | Raise e => Raise e
  end.

Notation "'do' x <- r ; k" := (rbind r (fun x => k))
  (at level 10, x name, r at level 100, k at level 200).

Fixpoint rmap {A B : Type} (f : A -> result B) (l : list A) : result (list B) :=
  match l with
  | [] => Ok []
  | a :: l' => do b <- f a; do bs <- rmap f l'; Ok (b :: bs)
  end.

(** *** Python strings *)

Module PyStr.

(** [str.isspace] on one character; also the class [\s] of [re] on [str]. *)
Definition isspace (c : ascii) : bool :=
  let n := N_of_ascii c in
  (((9 <=? n) && (n <=? 13)) || ((28 <=? n) && (n <=? 32))
   || (n =? 133) || (n =? 160))%N.

Fixpoint lstrip (s : string) : string :=
  match s with
  | EmptyString => EmptyString
  | String c s' => if isspace c then lstrip s' else s
  end.

Fixpoint rstrip (s : string) : string :=
  match s with
  | EmptyString => EmptyString
  | String c s' =>
      match rstrip s' with
      | EmptyString => if isspace c then EmptyString else String c EmptyString
      | r => String c r
      end
  end.

(** [s.strip()] *)
Definition strip (s : string) : string := rstrip (lstrip s).

(** The scan of [re.sub(r"\s+", " ", s)]: [in_run] tells that the previous
    character belonged to the whitespace run already replaced. *)
Fixpoint sub_ws (in_run : bool) (s : string) : string :=
  match s with
  | EmptyString => EmptyString
  | String c s' =>
      if isspace c then
        if in_run then sub_ws true s' else String " " (sub_ws true s')
      else String c (sub_ws false s')
  end.

Definition re_sub_ws_space (s : string) : string := sub_ws false s.

(** [str.lower] on one character of the range. *)
Definition lower_char (c : ascii) : ascii :=
  let n := N_of_ascii c in
  if (((65 <=? n) && (n <=? 90)) || ((192 <=? n) && (n <=? 214))
      || ((216 <=? n) && (n <=? 222)))%N
  then ascii_of_N (n + 32) else c.

Fixpoint lower (s : string) : string :=
  match s with
  | EmptyString => EmptyString
  | String c s' => String (lower_char c) (lower s')
  end.

(** [k in s] for strings. *)
Fixpoint contains (k s : string) : bool :=
  String.prefix k s ||
  match s with
  | EmptyString => false
  | String _ s' => contains k s'
  end.

(** [sep.join(l)] *)
Fixpoint join (sep : string) (l : list string) : string :=
  match l with
  | [] => EmptyString
  | [w] => w
  | w :: l' => w +:+ sep +:+ join sep l'
  end.

(** [s.split()]: the maximal runs of characters that are not whitespace.
    [tokens] returns the run that starts [s] (empty when [s] starts with
    whitespace) and the runs after it. *)
Definition push_word (w : string) (ws : list string) : list string :=
  match w with
  | EmptyString => ws
  | _ => w :: ws
  end.

Fixpoint tokens (s : string) : string * list string :=
  match s with
  | EmptyString => (EmptyString, [])
  | String c s' =>
      let '(w, ws) := tokens s' in
      if isspace c then (EmptyString, push_word w ws) else (String c w, ws)
  end.

Definition split (s : string) : list string :=
  let '(w, ws) := tokens s in push_word w ws.

(** [s.find(c)] and [s.rfind(c)] for a one-character needle; [None] is -1. *)
Fixpoint find (c : ascii) (s : string) : option nat :=
  match s with
  | EmptyString => None
  | String d s' => if Ascii.eqb c d then Some 0 else S <$> find c s'
  end.

Fixpoint rfind (c : ascii) (s : string) : option nat :=
  match s with
  | EmptyString => None
  | String d s' =>
      match rfind c s' with
      | Some i => Some (S i)
      | None => if Ascii.eqb c d then Some 0 else None
      end
  end.

(** [s[i:j]] for [0 <= i], [0 <= j]. *)
Definition slice (i j : nat) (s : string) : string :=
  String.substring i (j - i) s.

(** [s.encode('utf-8')], bytes as integers. *)
Fixpoint encode_utf8 (s : string) : list Z :=
  match s with
  | EmptyString => []
  | String c s' =>
      let n := Z.of_N (N_of_ascii c) in
      (if (n <? 128)%Z then [n]
       else [Z.lor 192 (Z.shiftr n 6); Z.lor 128 (Z.land n 63)])
      ++ encode_utf8 s'
  end.

End PyStr.

(** *** SHA-1 ([hashlib.sha1]) over a list of bytes *)

Module Sha1.
Local Open Scope Z_scope.

Definition wrap32 (x : Z) : Z := x mod 4294967296.
Definition add32 (x y : Z) : Z := wrap32 (x + y).
Definition rotl32 (n x : Z) : Z :=
  Z.lor (wrap32 (Z.shiftl x n)) (Z.shiftr x (32 - n)).
Definition not32 (x : Z) : Z := 4294967295 - x.

(** The [n] low bytes of [v], most significant first. *)
Fixpoint be_bytes (n : nat) (v : Z) : list Z :=
  match n with
  | O => []
  | S n' => Z.land (Z.shiftr v (8 * Z.of_nat n')) 255 :: be_bytes n' v
  end.

(** Message padding: a 1 bit, zeros up to 56 modulo 64, the bit length. *)
Definition pad (msg : list Z) : list Z :=
  let l := Z.of_nat (length msg) in
  msg ++ [128] ++ repeat 0 (Z.to_nat ((55 - l) mod 64)) ++ be_bytes 8 (8 * l).

Fixpoint be_words (n : nat) (bytes : list Z) : list Z :=
  match n, bytes with
  | S n', b0 :: b1 :: b2 :: b3 :: rest =>
      (Z.shiftl b0 24 + Z.shiftl b1 16 + Z.shiftl b2 8 + b3) :: be_words n' rest
  | _, _ => []
  end.

(** The message schedule, newest word first: [rev_w] holds W[t-1], W[t-2], ... *)
Fixpoint schedule (n : nat) (rev_w : list Z) : list Z :=
  match n with
  | O => rev_w
  | S n' =>
      let w := rotl32 1 (Z.lxor (Z.lxor (nth 2 rev_w 0) (nth 7 rev_w 0))
                                (Z.lxor (nth 13 rev_w 0) (nth 15 rev_w 0))) in
      schedule n' (w :: rev_w)
  end.

Definition state : Type := Z * Z * Z * Z * Z.

Definition round_f (t : nat) (b c d : Z) : Z :=
  if (t <? 20)%nat then Z.lor (Z.land b c) (Z.land (not32 b) d)
  else if (t <? 40)%nat then Z.lxor (Z.lxor b c) d
  else if (t <? 60)%nat then
    Z.lor (Z.lor (Z.land b c) (Z.land b d)) (Z.land c d)
  else Z.lxor (Z.lxor b c) d.

Definition round_k (t : nat) : Z :=
  if (t <? 20)%nat then 1518500249
  else if (t <? 40)%nat then 1859775393
  else if (t <? 60)%nat then 2400959708
  else 3395469782.

Fixpoint rounds (t : nat) (ws : list Z) (st : state) : state :=
  match ws with
  | [] => st
  | w :: ws' =>
      let '(a, b, c, d, e) := st in
      let temp :=
        add32 (add32 (add32 (add32 (rotl32 5 a) (round_f t b c d)) e) (round_k t)) w in
      rounds (S t) ws' (temp, a, rotl32 30 b, c, d)
  end.

Definition compress (st : state) (block : list Z) : state :=
  let ws := rev (schedule 64 (rev (be_words 16 block))) in
  let '(a, b, c, d, e) := rounds 0 ws st in
  let '(h0, h1, h2, h3, h4) := st in
  (add32 h0 a, add32 h1 b, add32 h2 c, add32 h3 d, add32 h4 e).

Fixpoint blocks (n : nat) (bytes : list Z) (st : state) : state :=
  match n with
  | O => st
  | S n' => blocks n' (drop 64 bytes) (compress st (take 64 bytes))
  end.

Definition init : state :=
  (1732584193, 4023233417, 2562383102, 271733878, 3285377520).

Definition digest (msg : list Z) : state :=
  let p := pad msg in blocks (length p / 64)%nat p init.

Definition hex_digit (v : Z) : ascii :=
  let n := Z.land v 15 in
  if n <? 10 then ascii_of_N (Z.to_N (48 + n)) else ascii_of_N (Z.to_N (87 + n)).

Definition hex8 (w : Z) (k : string) : string :=
  String (hex_digit (Z.shiftr w 28)) (String (hex_digit (Z.shiftr w 24))
  (String (hex_digit (Z.shiftr w 20)) (String (hex_digit (Z.shiftr w 16))
  (String (hex_digit (Z.shiftr w 12)) (String (hex_digit (Z.shiftr w 8))
  (String (hex_digit (Z.shiftr w 4)) (String (hex_digit w) k))))))).

(** [hashlib.sha1(data).hexdigest()] *)
Definition hexdigest (msg : list Z) : string :=
  let '(h0, h1, h2, h3, h4) := digest msg in
  hex8 h0 (hex8 h1 (hex8 h2 (hex8 h3 (hex8 h4 EmptyString)))).

End Sha1.

(** *** Values decoded from JSON, datetimes, library calls *)

(** The value [json.loads] returns.  [JObj] lists the items of the decoded
    [dict], one per key; [JNull] is [None]. *)
Inductive json : Type :=
| JNull
| JBool (b : bool)
| JInt (z : Z)
| JFloat (f : float)
| JStr (s : string)
| JArr (l : list json)
| JObj (items : list (string * json)).

(** A [datetime]: the wall-clock reading in microseconds since
    0001-01-01T00:00:00 and, when the value is timezone-aware, the UTC offset
    of its [tzinfo] in microseconds. *)
Record datetime : Type := MkDatetime {
  wall : Z;
  tzinfo : option Z;
}.

Class PyLib : Type := {
  (** [json.loads(text)]; [None] stands for [json.JSONDecodeError]. *)
  json_loads : string -> option json;
  (** [dateutil.parser.parse(value)] on a string; [None] stands for any
      exception. *)
  parser_parse : string -> option datetime;
  (** [float(s)] on a string; [None] stands for [ValueError]. *)
  float_of_str : string -> option float;
  (** [dt.isoformat()] *)
  dt_isoformat : datetime -> string;
  (** [dt.strftime('%b %d, %Y')] *)
  strftime_display : datetime -> string;
}.

Module Py.
Local Open Scope Z_scope.

(** [d.get(key)] on the items of a dict. *)
Fixpoint dict_get (key : string) (items : list (string * json)) : option json :=
  match items with
  | [] => None
  | (k, v) :: rest => if String.eqb k key then Some v else dict_get key rest
  end.

(** [value.get(key, default)]: an [AttributeError] unless [value] is a dict. *)
Definition get (value : json) (key : string) (dflt : json) : result json :=
  match value with
  | JObj items => Ok (default dflt (dict_get key items))
  | _ => Raise AttributeError
  end.

(** [d[key]] *)
Definition getitem (items : list (string * json)) (key : string) : result json :=
  match dict_get key items with
  | Some v => Ok v
  | None => Raise KeyError
  end.

(** [d[key] = v] *)
Fixpoint setitem (key : string) (v : json) (items : list (string * json))
    : list (string * json) :=
  match items with
  | [] => [(key, v)]
  | (k, x) :: rest =>
      if String.eqb k key then (k, v) :: rest else (k, x) :: setitem key v rest
  end.

(** A [str | None] as a value. *)
Definition of_str (o : option string) : json :=
  match o with
  | Some s => JStr s
  | None => JNull
  end.

(** Truth value of a decoded JSON value. *)
Definition truthy (v : json) : bool :=
  match v with
  | JNull => false
  | JBool b => b
  | JInt z => negb (z =? 0)
  | JFloat f => negb (PrimFloat.eqb f 0)
  | JStr s => negb (String.eqb s EmptyString)
  | JArr l => match l with [] => false | _ => true end
  | JObj items => match items with [] => false | _ => true end
  end.

(** Truth value of a [str | None]. *)
Definition truthy_str (o : option string) : bool :=
  match o with
  | Some s => negb (String.eqb s EmptyString)
  | None => false
  end.

(** [for x in value]: lists give their elements, strings their characters,
    dicts their keys; anything else is not iterable. *)
Definition iter (v : json) : result (list json) :=
  match v with
  | JArr l => Ok l
  | JStr s => Ok ((fun c => JStr (String c EmptyString)) <$> list_ascii_of_string s)
  | JObj items => Ok ((fun kv => JStr (fst kv)) <$> items)
  | _ => Raise TypeError
  end.

(** The binary64 value nearest to an integer, ties to even: the conversion
    of an [int] in mixed arithmetic. *)
Definition fl (z : Z) : float := SF2Prim (binary_normalize prec emax z 0 false).

(** [float(n)] on an [int]: [OverflowError] when the nearest value is not
    finite. *)
Definition float_of_int (z : Z) : result float :=
  match binary_normalize prec emax z 0 false with
  | S754_infinity _ => Raise OverflowError
  | _ => Ok (fl z)
  end.

(** [float(value)] *)
Definition to_float `{PyLib} (v : json) : result float :=
  match v with
  | JNull => Raise TypeError
  | JBool b => Ok (if b then 1%float else 0%float)
  | JInt z => float_of_int z
  | JFloat f => Ok f
  | JStr s => match float_of_str s with Some f => Ok f | None => Raise ValueError end
  | JArr _ | JObj _ => Raise TypeError
  end.

(** [min(a, b)] and [max(a, b)] on floats: the first argument unless the
    second is strictly smaller (resp. greater). *)
Definition fmin (a b : float) : float := if PrimFloat.ltb b a then b else a.
Definition fmax (a b : float) : float := if PrimFloat.ltb a b then b else a.

Definition half_even (num den : Z) : Z :=
  let q := num / den in
  let r := num mod den in
  if 2 * r <? den then q
  else if den <? 2 * r then q + 1
  else if Z.even q then q else q + 1.

(** [round(x, 2)]: the exact value of [x] is rounded to a multiple of 1/100,
    ties to even, and the nearest float to that decimal is returned.  The
    multiple [n] is converted exactly as long as [|x| < 2^53 / 100], which
    covers every value this program rounds (all lie in [0, 100]). *)
Definition round2 (x : float) : float :=
  match Prim2SF x with
  | S754_finite s m e =>
      if 0 <=? e then x
      else
        let n := half_even (Z.pos m * 100) (2 ^ (- e)) in
        let y := PrimFloat.div (fl n) 100 in
        if s then PrimFloat.opp y else y
  | _ => x
  end.

(** [l[:limit]] *)
Definition take_upto {A : Type} (limit : Z) (l : list A) : list A :=
  if 0 <=? limit then take (Z.to_nat limit) l
  else take (Z.to_nat (Z.of_nat (length l) + limit)) l.

(** [sorted(l, key=..., reverse=True)] for keys that compare without error:
    descending, equal keys in input order.  [lt a b] is [a < b] on keys. *)
Section Sorted.
Context {A K : Type} (key : A -> K) (lt : K -> K -> bool).

Fixpoint insert_desc (x : A) (l : list A) : list A :=
  match l with
  | [] => [x]
  | y :: l' =>
      if lt (key x) (key y) then y :: insert_desc x l' else x :: l
  end.

Fixpoint sorted_desc (l : list A) : list A :=
  match l with
  | [] => []
  | x :: l' => insert_desc x (sorted_desc l')
  end.
End Sorted.

End Py.

(** *** esg/utils.py *)

(** An article dict as [fetch_articles] builds it and as the annotations of
    [utils.py] read it ([str | None] keys, a [datetime] under
    [published_at]); [None] is Python's [None]. *)
Record Article : Type := MkArticle {
  title : option string;
  description : option string;
  url : option string;
  source : option string;
  published_at : option datetime;
  source_type : string;
}.

Module Utils.
Local Open Scope Z_scope.

Definition normalize_company_name (name : string) : string :=
  PyStr.re_sub_ws_space (PyStr.strip name).

Definition make_cache_key (company_name : string) : string :=
  let normalized := PyStr.lower (normalize_company_name company_name) in
  let digest := Sha1.hexdigest (PyStr.encode_utf8 normalized) in
  "esg:company:" +:+ digest.

(** [timezone.utc] has offset zero. *)
Definition utc : Z := 0.

Definition ensure_aware (dt : datetime) : datetime :=
  match tzinfo dt with
  | Some _ => dt
  | None => MkDatetime (wall dt) (Some utc)
  end.

(** A value that is not a string makes the parser raise, which the
    [except Exception] turns into [None]. *)
Definition safe_parse_datetime `{PyLib} (value : json) : option datetime :=
  if negb (Py.truthy value) then None
  else
    match value with
    | JStr s => ensure_aware <$> parser_parse s
    | _ => None
    end.

Definition isoformat `{PyLib} (dt : datetime) : string :=
  dt_isoformat (ensure_aware dt).

Definition detect_esg_aspects (text : string)
    (keyword_map : list (string * list string)) : list string :=
  let lowered := PyStr.lower text in
  fst <$> List.filter
    (fun entry => existsb (fun keyword => PyStr.contains keyword lowered) (snd entry))
    keyword_map.

(** [next((kc for kc in key_candidates if kc), None)] followed by the
    [if not unique_key] test. *)
Definition unique_key (entry : Article) : option string :=
  head (omap (fun kc => if Py.truthy_str kc then kc else None)
             [url entry; title entry]).

Fixpoint dedup_loop (seen : gset string) (entries : list Article) : list Article :=
  match entries with
  | [] => []
  | entry :: rest =>
      match unique_key entry with
      | None => dedup_loop seen rest
      | Some k =>
          if bool_decide (k ∈ seen) then dedup_loop seen rest
          else entry :: dedup_loop ({[k]} ∪ seen) rest
      end
  end.

Definition deduplicate_articles (entries : list Article) : list Article :=
  dedup_loop ∅ entries.

(** [datetime.min], a naive value. *)
Definition datetime_min : datetime := MkDatetime 0 None.

(** The sort key of [take_latest]. *)
Definition latest_key (item : Article) : datetime :=
  default datetime_min (published_at item).

(** Comparing a naive with an aware datetime raises [TypeError]; two naive
    values compare by wall clock, two aware values by UTC instant. *)
Definition same_kind (a b : datetime) : bool :=
  match tzinfo a, tzinfo b with
  | Some _, Some _ | None, None => true
  | _, _ => false
  end.

Definition instant (dt : datetime) : Z := wall dt - default 0 (tzinfo dt).

Definition dt_ltb (a b : datetime) : bool := instant a <? instant b.

(** A sort that returns has compared every two neighbours of its output,
    so it raises exactly when the keys are of both kinds. *)
Definition comparable_keys (keys : list datetime) : bool :=
  match keys with
  | [] => true
  | k :: rest => forallb (same_kind k) rest
  end.

Definition take_latest (entries : list Article) (limit : Z) : result (list Article) :=
  if comparable_keys (latest_key <$> entries) then
    let sorted_entries := Py.sorted_desc latest_key dt_ltb entries in
    Ok (Py.take_upto limit sorted_entries)
  else Raise TypeError.

End Utils.

(** *** esg/keywords.py *)

Module Keywords.

Definition ENVIRONMENTAL_KEYWORDS : list string :=
  ["emission"; "emissions"; "carbon"; "pollution"; "climate"; "waste";
   "deforestation"; "environment"; "biodiversity"; "renewable";
   "sustainability"; "water scarcity"; "pipeline leak"; "oil spill"; "toxic";
   "greenhouse"; "air quality"].

Definition SOCIAL_KEYWORDS : list string :=
  ["labour"; "labor"; "worker"; "strike"; "union"; "discrimination";
   "harassment"; "human rights"; "privacy"; "safety"; "fatality"; "community";
   "protest"; "diversity"; "inclusive"].

Definition GOVERNANCE_KEYWORDS : list string :=
  ["governance"; "board"; "fraud"; "bribery"; "audit"; "corruption";
   "whistleblower"; "accounting"; "transparency"; "sebi"; "sec"; "compliance";
   "tax evasion"; "money laundering"; "insider trading"].

Definition ESG_KEYWORDS : list (string * list string) :=
  [("environment", ENVIRONMENTAL_KEYWORDS);
   ("social", SOCIAL_KEYWORDS);
   ("governance", GOVERNANCE_KEYWORDS)].

End Keywords.

(** *** esg/services.py *)

Record ScoreSet : Type := MkScoreSet {
  environment : json;
  social : json;
  governance : json;
  overall : float;
}.

Record AnalysedItem : Type := MkItem {
  item_title : json;
  item_description : json;
  item_date : json;
  item_display_date : json;
  item_source : json;
  item_url : json;
  scores : ScoreSet;
}.

Record Analysis : Type := MkAnalysis {
  items : list AnalysedItem;
  overall_score : json;
}.

(** What the process sees of its configuration: whether [import openai]
    succeeded and [settings.OPENAI_API_KEY]. *)
Record Settings : Type := MkSettings {
  OpenAI : bool;
  OPENAI_API_KEY : option string;
}.

(** What one call of [client.responses.create] does: it raises, or returns a
    response without [output_text], or a response with that text. *)
Inductive reply : Type :=
| CreateRaised
| NoOutputText
| OutputText (text : string).

Module Services.
Local Open Scope Z_scope.

Definition WEIGHTS : list (string * Z) :=
  [("environment", 4); ("social", 3); ("governance", 3)].

(** [WEIGHTS[aspect]] for the three aspects, which are keys of [WEIGHTS]. *)
Definition weight (aspect : string) : Z :=
  default 0 (snd <$> List.find (fun kv => String.eqb (fst kv) aspect) WEIGHTS).

Section WithLib.
Context `{PyLib}.

Definition _coerce_score (value : json) (dflt : float) : result float :=
  match Py.to_float value with
  | Ok number => Ok (Py.fmax 0 (Py.fmin 100 number))
  | Raise TypeError | Raise ValueError => Ok dflt
  | Raise e => Raise e
  end.

(** [scores.get(key)] on a dict *)
Definition score_of (scores : list (string * json)) (key : string) : json :=
  default JNull (Py.dict_get key scores).

Definition _calculate_weighted_score (scores : list (string * json)) : result float :=
  let total_weight := foldr Z.add 0 (snd <$> WEIGHTS) in
  do e <- _coerce_score (score_of scores "environment") 0;
  do s <- _coerce_score (score_of scores "social") 0;
  do g <- _coerce_score (score_of scores "governance") 0;
  let weighted_sum :=
    (Py.fl (weight "environment") * e + Py.fl (weight "social") * s
     + Py.fl (weight "governance") * g)%float in
  Ok (if total_weight =? 0 then 0%float
      else Py.round2 (weighted_sum / Py.fl total_weight)%float).

Definition _sort_items_by_score (l : list AnalysedItem) : list AnalysedItem :=
  Py.sorted_desc (fun item => overall (scores item)) PrimFloat.ltb l.

(** [sum] adds from the left starting at 0; every [overall] is a float. *)
Definition _compute_overall_score (l : list AnalysedItem) : float :=
  match l with
  | [] => 0%float
  | _ =>
      let valid_scores := (fun item => overall (scores item)) <$> l in
      Py.round2 (foldl PrimFloat.add 0%float valid_scores
                 / Py.fl (Z.of_nat (length valid_scores)))%float
  end.

Definition _format_display_date (value : json) : json :=
  let dt := if Py.truthy value then Utils.safe_parse_datetime value else None in
  match dt with
  | None => if Py.truthy value then value else JStr "N/A"
  | Some d => JStr (strftime_display d)
  end.

Definition _normalize_item_structure (item : json) : result AnalysedItem :=
  do raw <- Py.get item "scores" JNull;
  let scores := if Py.truthy raw then raw else JObj [] in
  do e <- (do v <- Py.get scores "environment" JNull; _coerce_score v 0);
  do s <- (do v <- Py.get scores "social" JNull; _coerce_score v 0);
  do g <- (do v <- Py.get scores "governance" JNull; _coerce_score v 0);
  let normalized_scores :=
    [("environment", JFloat e); ("social", JFloat s); ("governance", JFloat g)] in
  do given <- Py.get scores "overall" JNull;
  do computed <- _calculate_weighted_score normalized_scores;
  do o <- _coerce_score given computed;
  do d1 <- Py.get item "date" JNull;
  do d2 <- Py.get item "published_at" JNull;
  let date_value := if Py.truthy d1 then d1 else d2 in
  do t <- Py.get item "title" (JStr "");
  do d <- Py.get item "description" (JStr "");
  do src <- Py.get item "source" JNull;
  do u <- Py.get item "url" JNull;
  Ok (MkItem t d date_value (_format_display_date date_value) src u
        (MkScoreSet (JFloat e) (JFloat s) (JFloat g) o)).

Definition _openai_available (cfg : Settings) : bool :=
  OpenAI cfg && Py.truthy_str (OPENAI_API_KEY cfg).

Definition _execute_openai_prompt (cfg : Settings) (r : reply) : result string :=
  if negb (_openai_available cfg) then Raise ESGServiceError
  else
    match r with
    | CreateRaised => Raise ESGServiceError
    | NoOutputText => Raise ESGServiceError
    | OutputText text => Ok text
    end.

(** The prompt is text built from the articles; the model's answer to it
    is the argument [r]. *)
Definition _analyse_with_openai (cfg : Settings) (r : reply)
    (articles : list Article) : result Analysis :=
  do response_text <- _execute_openai_prompt cfg r;
  do parsed <-
    match json_loads response_text with
    | Some v => Ok v
    | None => Raise ESGServiceError
    end;
  do raw_items <- Py.get parsed "items" (JArr []);
  do listed <- Py.iter raw_items;
  do normalized <- rmap _normalize_item_structure listed;
  let sorted_items := _sort_items_by_score normalized in
  do given <- Py.get parsed "overall_score" JNull;
  let overall_score :=
    match given with
    | JNull => JFloat (_compute_overall_score sorted_items)
    | v => v
    end in
  Ok (MkAnalysis sorted_items
        (if Py.truthy overall_score then overall_score else JInt 0)).

Definition BASE_SCORE : Z := 70.

(** [' '.join(filter(None, [title, description]))] *)
Definition heuristic_text (article : Article) : string :=
  PyStr.join " "
    (omap (fun part => if Py.truthy_str part then part else None)
          [title article; description article]).

(** One turn of the loop of [_analyse_with_heuristics]. *)
Definition heuristic_item (article : Article) : result AnalysedItem :=
  let text := heuristic_text article in
  let aspects := Utils.detect_esg_aspects text Keywords.ESG_KEYWORDS in
  let scores :=
    foldl (fun sc aspect => Py.setitem aspect (JInt BASE_SCORE) sc)
          [("environment", JInt 0); ("social", JInt 0); ("governance", JInt 0)]
          aspects in
  do o <- _calculate_weighted_score scores;
  let date_iso :=
    match published_at article with
    | Some dt => JStr (Utils.isoformat dt)
    | None => JNull
    end in
  do e <- Py.getitem scores "environment";
  do s <- Py.getitem scores "social";
  do g <- Py.getitem scores "governance";
  Ok (MkItem (Py.of_str (title article)) (Py.of_str (description article))
        date_iso (_format_display_date date_iso)
        (Py.of_str (source article)) (Py.of_str (url article))
        (MkScoreSet e s g o)).

Definition _analyse_with_heuristics (articles : list Article) : result Analysis :=
  do built <- rmap heuristic_item articles;
  let sorted_items := _sort_items_by_score built in
  Ok (MkAnalysis sorted_items (JFloat (_compute_overall_score sorted_items))).

Definition _analyse_articles (cfg : Settings) (r : reply)
    (articles : list Article) : result Analysis :=
  match articles with
  | [] => Ok (MkAnalysis [] (JInt 0))
  | _ =>
      if _openai_available cfg then
        match _analyse_with_openai cfg r articles with
        | Ok analysis => Ok analysis
        | Raise ESGServiceError => _analyse_with_heuristics articles
        | Raise e => Raise e
        end
      else _analyse_with_heuristics articles
  end.

End WithLib.
End Services.

(** *** esg/clients.py *)

Module Clients.
Local Open Scope Z_scope.

Definition LOOKBACK_DAYS : Z := 730.

Section WithLib.
Context `{PyLib}.

(** [re.findall(r"```(?:json)?\s*(\{.*?\})\s*```", text, flags=re.DOTALL)].
    After the opening fence the prefix of a match is forced (the word json if
    it is there, then all the whitespace, then the brace), and the lazy body
    ends at the first closing brace that is followed by whitespace and a
    fence. *)
Fixpoint strip_prefix (p s : string) : option string :=
  match p, s with
  | EmptyString, _ => Some s
  | String a p', String b s' => if Ascii.eqb a b then strip_prefix p' s' else None
  | String _ _, EmptyString => None
  end.

Definition FENCE : string := "```".

(** The body from here to the closing brace of the block, and the text after
    the closing fence. *)
Fixpoint close_at (s : string) : option (string * string) :=
  match s with
  | EmptyString => None
  | String c s' =>
      match (if Ascii.eqb c "}" then strip_prefix FENCE (PyStr.lstrip s') else None) with
      | Some rest => Some (String c EmptyString, rest)
      | None =>
          match close_at s' with
          | Some (body, rest) => Some (String c body, rest)
          | None => None
          end
      end
  end.

(** A match of the pattern at the start of [s]: the captured block and the
    text after the match. *)
Definition match_here (s : string) : option (string * string) :=
  match strip_prefix FENCE s with
  | None => None
  | Some s1 =>
      match PyStr.lstrip (default s1 (strip_prefix "json" s1)) with
      | String c s4 =>
          if Ascii.eqb c "{" then
            match close_at s4 with
            | Some (body, rest) => Some (String c body, rest)
            | None => None
            end
          else None
      | EmptyString => None
      end
  end.

(** The scan of [findall]; [skip] counts the characters of the last match
    that are still to be passed. *)
Fixpoint findall_from (skip : nat) (s : string) : list string :=
  match s with
  | EmptyString => []
  | String _ s' =>
      match skip with
      | S k => findall_from k s'
      | O =>
          match match_here s with
          | Some (block, rest) =>
              block :: findall_from (String.length s - String.length rest - 1) s'
          | None => findall_from 0 s'
          end
      end
  end.

Definition fenced_blocks (text : string) : list string := findall_from 0 text.

(** Fallback of [_parse_articles_payload]: the text from the first
    opening brace to the last closing brace, when there is one. *)
Definition brace_slice (text : string) : option string :=
  match PyStr.find "{" text, PyStr.rfind "}" text with
  | Some start, Some stop =>
      if (start <? stop)%nat then Some (PyStr.slice start (S stop) text) else None
  | _, _ => None
  end.

Definition _parse_articles_payload (raw_text : string) : result json :=
  let text := PyStr.strip raw_text in
  match json_loads text with
  | Some payload => Ok payload
  | None =>
      match omap json_loads (fenced_blocks text) with
      | payload :: _ => Ok payload
      | [] =>
          match brace_slice text with
          | Some candidate =>
              match json_loads candidate with
              | Some payload => Ok payload
              | None => Raise JSONDecodeError
              end
          | None => Raise JSONDecodeError
          end
      end
  end.

(** A text field of a raw item.  The oracle is asked for strings; a field
    of another JSON type lies outside [Article] and is read as [None]. *)
Definition text_field (v : json) : option string :=
  match v with
  | JStr s => Some s
  | _ => None
  end.

(** [datetime.utcnow()] at clock reading [now]: a naive value. *)
Definition utcnow (now : Z) : datetime := MkDatetime now None.

(** One turn of the loop that builds [articles], at clock reading [now]. *)
Definition make_article (now : Z) (item : json) : result Article :=
  do p <- Py.get item "published_at" JNull;
  let published_at := default (utcnow now) (Utils.safe_parse_datetime p) in
  do t <- Py.get item "title" (JStr "");
  do d <- Py.get item "description" (JStr "");
  do u <- Py.get item "url" JNull;
  do s <- Py.get item "source" JNull;
  Ok (MkArticle (text_field t) (text_field d) (text_field u) (text_field s)
        (Some published_at) "openai_web_search").

Fixpoint make_articles (clock : nat -> Z) (turn : nat) (raw : list json)
    : result (list Article) :=
  match raw with
  | [] => Ok []
  | item :: rest =>
      do a <- make_article (clock turn) item;
      do l <- make_articles clock (S turn) rest;
      Ok (a :: l)
  end.

(** [r] is what the web-search request does, [clock] the clock reading at
    each turn of the loop over the raw items. *)
Definition fetch_articles (cfg : Settings) (r : reply) (clock : nat -> Z)
    (company_name : string) (limit : Z) : result (list Article) :=
  if negb (OpenAI cfg && Py.truthy_str (OPENAI_API_KEY cfg)) then Ok []
  else
    match r with
    | CreateRaised => Ok []
    | NoOutputText => Ok []
    | OutputText response_text =>
        match _parse_articles_payload response_text with
        | Raise JSONDecodeError => Ok []
        | Raise e => Raise e
        | Ok payload =>
            do listed <- (do a <- Py.get payload "articles" (JArr []); Py.iter a);
            do articles <- make_articles clock 0 listed;
            let unique_articles := Utils.deduplicate_articles articles in
            Utils.take_latest unique_articles limit
        end
    end.

End WithLib.
End Clients.

(** *** esg/history.py *)

(** A row of [dashboard.models.SearchHistory]. *)
Record SearchHistory : Type := MkSearch {
  user_id : Z;
  company_name : string;
  searched_at : Z;
}.

Module History.
Local Open Scope Z_scope.

(** [SearchHistory.objects.filter(user_id=...).order_by('-searched_at')]
    over the rows of the table. *)
Definition recent_rows (table : list SearchHistory) (uid : Z) : list SearchHistory :=
  Py.sorted_desc searched_at Z.ltb
    (List.filter (fun row => user_id row =? uid) table).

(** The loop of [get_recent_searches]; [found] is [len(results)] so far. *)
Fixpoint collect (seen : gset string) (found : Z) (limit : Z)
    (qs : list SearchHistory) : list (string * Z) :=
  match qs with
  | [] => []
  | entry :: rest =>
      let key := PyStr.lower (company_name entry) in
      if bool_decide (key ∈ seen) then collect seen found limit rest
      else
        (company_name entry, searched_at entry) ::
        (if limit <=? found + 1 then []
         else collect ({[key]} ∪ seen) (found + 1) limit rest)
  end.

Definition get_recent_searches (table : list SearchHistory) (uid : Z) (limit : Z)
    : list (string * Z) :=
  if uid =? 0 then []
  else collect ∅ 0 limit (recent_rows table uid).

End History.

(** *** Vocabulary of the statements *)

Module Shape.

Definition starts_with_ws (s : string) : bool :=
  match s with
  | EmptyString => false
  | String c _ => PyStr.isspace c
  end.

Fixpoint ends_with_ws (s : string) : bool :=
  match s with
  | EmptyString => false
  | String c EmptyString => PyStr.isspace c
  | String _ s' => ends_with_ws s'
  end.

Fixpoint has_adjacent_ws (s : string) : bool :=
  match s with
  | EmptyString => false
  | String c s' => (PyStr.isspace c && starts_with_ws s') || has_adjacent_ws s'
  end.

Fixpoint no_ws (s : string) : bool :=
  match s with
  | EmptyString => true
  | String c s' => negb (PyStr.isspace c) && no_ws s'
  end.

(** A word of [str.split()]: not empty, free of whitespace. *)
Definition word (w : string) : Prop := w <> EmptyString /\ no_ws w = true.

(** The words of a list, each behind one space. *)
Fixpoint spaced (ws : list string) : string :=
  match ws with
  | [] => EmptyString
  | w :: ws' => " " +:+ w +:+ spaced ws'
  end.

(** Descending order of a list under an integer rank. *)
Definition descending {A : Type} (rank : A -> Z) (l : list A) : Prop :=
  StronglySorted (fun a b => (rank b <= rank a)%Z) l.

(** [out] is [l] in descending order of rank, entries of equal rank in
    their order in [l]. *)
Definition stable_descending {A : Type} (rank : A -> Z) (l out : list A) : Prop :=
  Permutation out l
  /\ descending rank out
  /\ forall t : Z, filter (fun a => rank a = t) out = filter (fun a => rank a = t) l.

(** The instant by which [take_latest] orders an entry. *)
Definition published_rank (entry : Article) : Z :=
  Utils.instant (Utils.latest_key entry).

End Shape.

(** The three extraction strategies of [_parse_articles_payload] all fail on
    a response text: the stripped text does not decode, no fenced block
    decodes, and the brace-to-brace slice, if there is one, does not decode. *)
Definition extraction_fails `{PyLib} (response_text : string) : Prop :=
  let text := PyStr.strip response_text in
  json_loads text = None
  /\ Forall (fun block => json_loads block = None) (Clients.fenced_blocks text)
  /\ forall candidate, Clients.brace_slice text = Some candidate ->
       json_loads candidate = None.

(** Some keyword of the list occurs in the lowercased text. *)
Definition keyword_hit (keywords : list string) (text : string) : bool :=
  existsb (fun keyword => PyStr.contains keyword (PyStr.lower text)) keywords.

(** The score set the heuristic gives for the three aspect hits: the base
    score 70 on each axis that has a hit, 0 on the others, and their weighted
    mean. *)
Definition heuristic_scores (env soc gov : bool) : ScoreSet :=
  let base (hit : bool) : Z := (if hit then 70 else 0)%Z in
  MkScoreSet (JInt (base env)) (JInt (base soc)) (JInt (base gov))
    (Py.round2 ((4 * Py.fl (base env) + 3 * Py.fl (base soc) + 3 * Py.fl (base gov))
                / 10)%float).

(** *** Sample data for the worked examples *)

Module Sample.
Local Open Scope Z_scope.

Definition dq : string := String (ascii_of_nat 34) EmptyString.

(** [s] between double quotes. *)
Definition quoted (s : string) : string := dq +:+ s +:+ dq.

(** The text of a response holding one article without [published_at]. *)
Definition undated_text : string :=
  "{" +:+ quoted "articles" +:+ ": [{" +:+ quoted "title" +:+ ": "
  +:+ quoted "Spill" +:+ "}]}".

Definition undated_payload : json :=
  JObj [("articles", JArr [JObj [("title", JStr "Spill")]])].

(** The text of a response holding a dated and an undated article. *)
Definition mixed_text : string :=
  "{" +:+ quoted "articles" +:+ ": [{" +:+ quoted "title" +:+ ": "
  +:+ quoted "Spill" +:+ "}, {" +:+ quoted "title" +:+ ": " +:+ quoted "Audit"
  +:+ ", " +:+ quoted "published_at" +:+ ": " +:+ quoted "2024-05-01T00:00:00Z"
  +:+ "}]}".

Definition mixed_payload : json :=
  JObj [("articles",
         JArr [JObj [("title", JStr "Spill")];
               JObj [("title", JStr "Audit");
                     ("published_at", JStr "2024-05-01T00:00:00Z")]])].

(** The text of a scoring report with one item and no [overall] scores. *)
Definition report_text : string :=
  "{" +:+ quoted "items" +:+ ": [{" +:+ quoted "title" +:+ ": "
  +:+ quoted "Spill" +:+ ", " +:+ quoted "scores" +:+ ": {"
  +:+ quoted "environment" +:+ ": 80, " +:+ quoted "social" +:+ ": 150}}]}".

Definition report_payload : json :=
  JObj [("items",
         JArr [JObj [("title", JStr "Spill");
                     ("scores", JObj [("environment", JInt 80);
                                      ("social", JInt 150)])]])].

(** 2024-05-01T00:00:00 in microseconds since 0001-01-01T00:00:00. *)
Definition may_2024 : Z := 63850118400000000.

(** A library that agrees with Python's on the inputs used in the examples:
    it decodes the JSON texts above (and the empty array) the way
    [json.loads] does and rejects the text of [plain_text], parses the one
    date and rejects the one non-numeric string. *)
Definition lib : PyLib := {|
  json_loads text :=
    if String.eqb text "[]" then Some (JArr [])
    else if String.eqb text undated_text then Some undated_payload
    else if String.eqb text mixed_text then Some mixed_payload
    else if String.eqb text report_text then Some report_payload
    else None;
  parser_parse value :=
    if String.eqb value "2024-05-01T00:00:00Z"
    then Some (MkDatetime may_2024 (Some 0)) else None;
  float_of_str _ := None;
  dt_isoformat _ := "2024-05-01T00:00:00+00:00";
  strftime_display _ := "May 01, 2024";
|}.

Definition plain_text : string := "Sorry, I cannot browse the web".

(** A clock that starts on 2024-06-01T00:00:00 and advances by one
    millisecond per turn. *)
Definition clock (turn : nat) : Z := 63852796800000000 + 1000 * Z.of_nat turn.

Definition configured : Settings := MkSettings true (Some "sk-test").

Definition article (t : string) (d : option datetime) : Article :=
  MkArticle (Some t) (Some EmptyString) None None d "openai_web_search".

Definition naive (t : Z) : option datetime := Some (MkDatetime t None).
Definition aware (t : Z) : option datetime := Some (MkDatetime t (Some 0)).

Definition row (uid : Z) (name : string) (t : Z) : SearchHistory :=
  MkSearch uid name t.

End Sample.

(** *** esg/services.py: the profile and its cache *)

Record CompanyProfile : Type := MkProfile {
  company : string;
  generated_at : string;
  generated_at_display : string;
  overview : string;
  profile_overall_score : json;
  profile_items : list AnalysedItem;
  total_items : nat;
  search_window_days : Z;
}.

Class PyDisplay : Type := {
  (** [dt.strftime('%b %d, %Y at %I:%M %p UTC')] *)
  strftime_generated_at : datetime -> string;
}.

(** [django.core.cache.cache] as the service uses it: an entry is a value
    and the time (in seconds) at which it expires; [get] sees an entry until
    then.  A stored profile is a dict with eight keys, so the test
    [if cached_value] succeeds exactly when [get] finds an entry. *)
Module Cache.
Local Open Scope Z_scope.

Definition get (store : gmap string (CompanyProfile * Z)) (key : string) (now : Z)
    : option CompanyProfile :=
  match store !! key with
  | Some (value, expiry) => if now <? expiry then Some value else None
  | None => None
  end.

Definition set (store : gmap string (CompanyProfile * Z)) (key : string)
    (value : CompanyProfile) (timeout now : Z) : gmap string (CompanyProfile * Z) :=
  <[key := (value, now + timeout)]> store.

End Cache.

(** What the outside does during one search: the three oracle requests, the
    clock readings of [fetch_articles], of [_build_profile] and of
    [record_search] (microseconds), and the times of the cache read and of
    the cache write (seconds). *)
Record World : Type := MkWorld {
  overview_reply : reply;
  search_reply : reply;
  scoring_reply : reply;
  article_clock : nat -> Z;
  built_at : Z;
  cache_read_at : Z;
  cache_write_at : Z;
  searched_now : Z;
}.

(** The attributes of an [ESGService] instance. *)
Record ESGService : Type := MkService {
  cache_timeout : Z;
  max_items : Z;
}.

Module ProfileService.
Local Open Scope Z_scope.

(** [ESGService()] *)
Definition default_service : ESGService := MkService (60 * 60) 50.

Section WithLib.
Context `{PyLib} `{PyDisplay}.

Definition _fetch_company_overview (cfg : Settings) (r : reply)
    (company_name : string) : result string :=
  if negb (Services._openai_available cfg) then
    Ok ("Overview unavailable for " +:+ company_name
        +:+ ". Configure OPENAI_API_KEY to enable this summary.")
  else
    match Services._execute_openai_prompt cfg r with
    | Ok response_text => Ok (PyStr.strip response_text)
    | Raise ESGServiceError => Ok ("Overview unavailable for " +:+ company_name +:+ ".")
    | Raise e => Raise e
    end.

Definition _build_profile (self : ESGService) (cfg : Settings) (w : World)
    (company_name : string) : result CompanyProfile :=
  do overview <- _fetch_company_overview cfg (overview_reply w) company_name;
  do articles <-
    Clients.fetch_articles cfg (search_reply w) (article_clock w) company_name
      (max_items self);
  do analysis <- Services._analyse_articles cfg (scoring_reply w) articles;
  let now := Clients.utcnow (built_at w) in
  Ok (MkProfile company_name (Utils.isoformat now) (strftime_generated_at now)
        overview (overall_score analysis) (items analysis)
        (length (items analysis)) Clients.LOOKBACK_DAYS).

(** The call returns its result and the cache as it leaves it. *)
Definition get_company_esg_profile (self : ESGService) (cfg : Settings) (w : World)
    (store : gmap string (CompanyProfile * Z)) (company_name : string)
    : result (CompanyProfile * bool) * gmap string (CompanyProfile * Z) :=
  let normalized := Utils.normalize_company_name company_name in
  let cache_key := Utils.make_cache_key normalized in
  match Cache.get store cache_key (cache_read_at w) with
  | Some cached_value => (Ok (cached_value, true), store)
  | None =>
      match _build_profile self cfg w normalized with
      | Ok profile =>
          (Ok (profile, false),
           Cache.set store cache_key profile (cache_timeout self) (cache_write_at w))
      | Raise e => (Raise e, store)
      end
  end.

End WithLib.
End ProfileService.

(** *** esg/history.py: recording a search; dashboard/views.py *)

Module Repository.
Local Open Scope Z_scope.

(** [SearchHistory.objects.create] appends a row to the table.  The table is
    the list of its rows in insertion order; the constraints of the database
    (the user must exist, the width of the name column) are not part of the
    model. *)
Definition record_search (table : list SearchHistory) (uid : Z)
    (name : string) (now : Z) : list SearchHistory :=
  if (uid =? 0) || String.eqb name EmptyString then table
  else table ++ [MkSearch uid (Utils.normalize_company_name name) now].

End Repository.

Module Views.

Section WithLib.
Context `{PyLib} `{PyDisplay}.


End WithLib.
End Views.

(** *** Vocabulary of the further statements *)

(** A score after coercion: 0, 100, or a float strictly between them. *)
Definition in_score_range (x : float) : Prop :=
  x = 0%float \/ x = 100%float
  \/ (PrimFloat.ltb 0 x = true /\ PrimFloat.ltb x 100 = true).

(** [a] is not below [b] in the order of [_sort_items_by_score]. *)
Definition not_below (a b : AnalysedItem) : Prop :=
  PrimFloat.ltb (overall (scores a)) (overall (scores b)) = false.

(** The overall scores that the heuristic can give. *)
Definition heuristic_overalls : list float := [0; 21; 28; 42; 49; 70]%float.

(** A text that starts with an opening brace and ends with a closing one. *)
Definition braced (c : string) : Prop :=
  exists n, String.get 0 c = Some "{"%char
            /\ String.get n c = Some "}"%char
            /\ String.get (S n) c = None.


Module SampleProfile.
Local Open Scope Z_scope.

Definition display : PyDisplay := {|
  strftime_generated_at _ := "Jun 01, 2024 at 12:00 AM UTC";
|}.

Definition unconfigured : Settings := MkSettings true None.

(** A search during which every request raises. *)
Definition offline : World :=
  MkWorld CreateRaised CreateRaised CreateRaised Sample.clock
    63852796800000000 1717200000 1717200001 63852796800000000.

(** A search whose web-search response holds one undated article and whose
    scoring response is no JSON. *)
Definition one_article : World :=
  MkWorld CreateRaised (OutputText Sample.undated_text)
    (OutputText Sample.plain_text) Sample.clock
    63852796800000000 1717200000 1717200001 63852796800000000.

(** A search whose web-search response holds a dated and an undated
    article. *)
Definition mixed_dates : World :=
  MkWorld CreateRaised (OutputText Sample.mixed_text)
    (OutputText Sample.plain_text) Sample.clock
    63852796800000000 1717200000 1717200001 63852796800000000.

(** A search half an hour later, during which every request raises. *)
Definition later : World :=
  MkWorld CreateRaised CreateRaised CreateRaised Sample.clock
    63854596800000000 1717201800 1717201801 63854596800000000.

(** The profile that the search [one_article] builds for "Adani Power": the
    scoring response does not decode, and the heuristic finds no keyword in
    the one title. *)
Definition spill_profile : CompanyProfile :=
  MkProfile "Adani Power" "2024-05-01T00:00:00+00:00"
    "Jun 01, 2024 at 12:00 AM UTC" "Overview unavailable for Adani Power."
    (JFloat 0)
    [MkItem (JStr "Spill") (JStr EmptyString) (JStr "2024-05-01T00:00:00+00:00")
       (JStr "2024-05-01T00:00:00+00:00") JNull JNull
       (MkScoreSet (JInt 0) (JInt 0) (JInt 0) 0)]
    1 730.

(** The cache after that search. *)
Definition spill_store : gmap string (CompanyProfile * Z) :=
  Cache.set ∅ (Utils.make_cache_key "Adani Power") spill_profile (60 * 60) 1717200001.

(** Two searches of user 7 and one of user 8. *)
Definition history : list SearchHistory :=
  [Sample.row 7 "Adani Power" 1; Sample.row 8 "Tesla" 5; Sample.row 7 "adani power" 2].

End SampleProfile.

(** *** Tactics *)

(** Case analysis on the three keyword hits of a text. *)
Ltac destruct_hits text :=
  destruct (keyword_hit Keywords.ENVIRONMENTAL_KEYWORDS text),
    (keyword_hit Keywords.SOCIAL_KEYWORDS text),
    (keyword_hit Keywords.GOVERNANCE_KEYWORDS text).


(** ** Part II.  Properties *)

#[local] Arguments String.append !_ _ / : simpl nomatch.

(** *** Strings: stripping, collapsing, splitting *)

Section StringFacts.
Import PyStr Shape.

Lemma append_empty_r (s : string) : s +:+ EmptyString = s.
Proof. induction s as [|c s IH]; simpl; [reflexivity | now rewrite IH]. Qed.

Lemma append_assoc (a b c : string) : (a +:+ b) +:+ c = a +:+ (b +:+ c).
Proof. induction a as [|x a IH]; simpl; [reflexivity | now rewrite IH]. Qed.

Lemma lstrip_rstrip_comm (s : string) : rstrip (lstrip s) = lstrip (rstrip s).
Proof.
  induction s as [|c s IH]; simpl; [reflexivity |].
  destruct (isspace c) eqn:Hc.
  - rewrite IH. destruct (rstrip s) as [|d r]; simpl; [reflexivity |].
    now rewrite Hc.
  - simpl. destruct (rstrip s) as [|d r]; simpl; now rewrite Hc.
Qed.

Lemma sub_ws_true_lstrip (s : string) : sub_ws true s = sub_ws false (lstrip s).
Proof.
  induction s as [|c s IH]; simpl; [reflexivity |].
  destruct (isspace c) eqn:Hc; simpl; [exact IH | now rewrite Hc].
Qed.

Lemma normalize_as_scan (s : string) :
  Utils.normalize_company_name s = sub_ws true (rstrip s).
Proof.
  unfold Utils.normalize_company_name, re_sub_ws_space, strip.
  now rewrite lstrip_rstrip_comm, sub_ws_true_lstrip.
Qed.

Lemma join_cons (w : string) (ws : list string) :
  join " " (w :: ws) = w +:+ spaced ws.
Proof.
  revert w. induction ws as [|v ws IH]; intros w.
  - symmetry. apply append_empty_r.
  - change (w +:+ " " +:+ join " " (v :: ws) = w +:+ " " +:+ v +:+ spaced ws).
    now rewrite IH.
Qed.

Lemma spaced_join (ws : list string) :
  ws <> [] -> spaced ws = String " " (join " " ws).
Proof.
  destruct ws as [|w ws]; [congruence | intros _].
  now rewrite join_cons.
Qed.

Lemma join_push_empty (ws : list string) :
  join " " (push_word EmptyString ws) = join " " ws.
Proof. reflexivity. Qed.

Lemma sub_ws_false_nonempty (c : ascii) (s : string) :
  sub_ws false (String c s) <> EmptyString.
Proof. simpl. destruct (isspace c); discriminate. Qed.

Lemma sub_ws_ws (b : bool) (c : ascii) (s : string) :
  isspace c = true ->
  sub_ws b (String c s) = if b then sub_ws true s else String " " (sub_ws true s).
Proof. intros Hc. simpl. now rewrite Hc. Qed.

Lemma sub_ws_char (b : bool) (c : ascii) (s : string) :
  isspace c = false -> sub_ws b (String c s) = String c (sub_ws false s).
Proof. intros Hc. simpl. now rewrite Hc. Qed.

Lemma rstrip_char (c : ascii) (s : string) :
  isspace c = false -> rstrip (String c s) = String c (rstrip s).
Proof. intros Hc. simpl. rewrite Hc. now destruct (rstrip s). Qed.

Lemma rstrip_ws (c : ascii) (s : string) :
  isspace c = true ->
  rstrip (String c s) =
    match rstrip s with EmptyString => EmptyString | r => String c r end.
Proof. intros Hc. simpl. rewrite Hc. now destruct (rstrip s). Qed.

(** The scan of a right-stripped string, read through [tokens]. *)
Lemma scan_tokens (s : string) :
  sub_ws false (rstrip s) = fst (tokens s) +:+ spaced (snd (tokens s))
  /\ sub_ws true (rstrip s) = join " " (push_word (fst (tokens s)) (snd (tokens s))).
Proof.
  induction s as [|c s [IHf IHt]]; [split; reflexivity |].
  cbn [tokens]. destruct (tokens s) as [w ws] eqn:Htok. cbn [fst snd] in IHf, IHt.
  destruct (isspace c) eqn:Hc; cbn [fst snd].
  - rewrite (rstrip_ws _ _ Hc). destruct (rstrip s) as [|d r] eqn:Hr.
    + simpl in IHf.
      assert (w = EmptyString /\ ws = []) as [-> ->].
      { destruct w; [|discriminate]. destruct ws; [auto | discriminate]. }
      split; reflexivity.
    + assert (push_word w ws <> []) as Hne.
      { intros Hnil. apply (sub_ws_false_nonempty d r). rewrite IHf.
        destruct w; simpl in Hnil; [subst ws; reflexivity | discriminate]. }
      rewrite !(sub_ws_ws _ _ _ Hc), IHt. split; [|reflexivity].
      now rewrite spaced_join.
  - rewrite (rstrip_char _ _ Hc), !(sub_ws_char _ _ _ Hc), IHf.
    split; [reflexivity |]. cbn [push_word]. now rewrite join_cons.
Qed.

Lemma normalize_as_join (s : string) :
  Utils.normalize_company_name s = join " " (split s).
Proof.
  rewrite normalize_as_scan. unfold split.
  destruct (scan_tokens s) as [_ Ht]. destruct (tokens s); exact Ht.
Qed.

Lemma tokens_shape (s : string) :
  no_ws (fst (tokens s)) = true /\ Forall word (snd (tokens s)).
Proof.
  induction s as [|c s [IHw IHws]]; [split; [reflexivity | constructor] |].
  cbn [tokens]. destruct (tokens s) as [w ws]. cbn [fst snd] in *.
  destruct (isspace c) eqn:Hc; cbn [fst snd].
  - split; [reflexivity |]. destruct w; cbn [push_word]; [exact IHws |].
    constructor; [split; [discriminate | exact IHw] | exact IHws].
  - split; [| exact IHws]. simpl. now rewrite Hc, IHw.
Qed.

Lemma split_words (s : string) : Forall word (split s).
Proof.
  unfold split. destruct (tokens_shape s) as [Hw Hws].
  destruct (tokens s) as [w ws]. cbn [fst snd] in *.
  destruct w; cbn [push_word]; [exact Hws |].
  constructor; [split; [discriminate | exact Hw] | exact Hws].
Qed.

Lemma tokens_app (w rest : string) :
  no_ws w = true ->
  tokens (w +:+ rest) = (w +:+ fst (tokens rest), snd (tokens rest)).
Proof.
  induction w as [|c w IH]; simpl; intros Hw.
  - now destruct (tokens rest).
  - apply andb_prop in Hw as [Hc Hw]. apply negb_true_iff in Hc.
    rewrite (IH Hw), Hc. reflexivity.
Qed.

Lemma tokens_join (w : string) (ws : list string) :
  word w -> Forall word ws -> tokens (join " " (w :: ws)) = (w, ws).
Proof.
  revert w. induction ws as [|v ws IH]; intros w [Hne Hw] Hws.
  - cbn [join]. rewrite <- (append_empty_r w) at 1.
    rewrite (tokens_app _ _ Hw). simpl. now rewrite append_empty_r.
  - inversion Hws as [|? ? Hv Hws']; subst.
    change (join " " (w :: v :: ws)) with (w +:+ String " " (join " " (v :: ws))).
    rewrite (tokens_app _ _ Hw). cbn [tokens].
    rewrite (IH v Hv Hws'). simpl. rewrite append_empty_r.
    destruct Hv as [Hvne _]. destruct v; [congruence | reflexivity].
Qed.

Lemma split_join (ws : list string) :
  Forall word ws -> split (join " " ws) = ws.
Proof.
  destruct ws as [|w ws]; [reflexivity |]. intros Hall.
  inversion Hall as [|? ? Hw Hws]; subst.
  unfold split. rewrite (tokens_join _ _ Hw Hws).
  destruct Hw as [Hne _]. destruct w; [congruence | reflexivity].
Qed.

Lemma normalize_idempotent (s : string) :
  Utils.normalize_company_name (Utils.normalize_company_name s)
  = Utils.normalize_company_name s.
Proof.
  rewrite (normalize_as_join (Utils.normalize_company_name s)).
  rewrite (normalize_as_join s) at 1.
  rewrite split_join by apply split_words.
  symmetry. apply normalize_as_join.
Qed.

(** The shape of the scan's output. *)
Lemma scan_no_leading_ws (s : string) : starts_with_ws (sub_ws true s) = false.
Proof.
  induction s as [|c s IH]; [reflexivity |].
  destruct (isspace c) eqn:Hc.
  - now rewrite (sub_ws_ws _ _ _ Hc).
  - now rewrite (sub_ws_char _ _ _ Hc).
Qed.

Lemma scan_no_adjacent_ws (b : bool) (s : string) :
  has_adjacent_ws (sub_ws b s) = false.
Proof.
  revert b. induction s as [|c s IH]; intros b; [reflexivity |].
  destruct (isspace c) eqn:Hc.
  - rewrite (sub_ws_ws _ _ _ Hc). destruct b; [apply IH |].
    cbn [has_adjacent_ws]. now rewrite scan_no_leading_ws, IH.
  - rewrite (sub_ws_char _ _ _ Hc). cbn [has_adjacent_ws]. now rewrite Hc, IH.
Qed.

Lemma rstrip_no_trailing_ws (s : string) : ends_with_ws (rstrip s) = false.
Proof.
  induction s as [|c s IH]; [reflexivity |].
  destruct (isspace c) eqn:Hc.
  - rewrite (rstrip_ws _ _ Hc). destruct (rstrip s) as [|d r]; [reflexivity |].
    exact IH.
  - rewrite (rstrip_char _ _ Hc). destruct (rstrip s) as [|d r]; [| exact IH].
    simpl. exact Hc.
Qed.

Lemma scan_keeps_end (b : bool) (s : string) :
  ends_with_ws s = false -> ends_with_ws (sub_ws b s) = false.
Proof.
  revert b. induction s as [|c s IH]; intros b Hend; [reflexivity |].
  destruct s as [|d s'].
  - simpl in Hend. rewrite (sub_ws_char _ _ _ Hend). simpl. exact Hend.
  - change (ends_with_ws (String d s') = false) in Hend.
    destruct (isspace c) eqn:Hc.
    + rewrite (sub_ws_ws _ _ _ Hc).
      destruct b; [now apply IH |].
      specialize (IH true Hend).
      destruct (sub_ws true (String d s')) as [|x r] eqn:Hsub; [| exact IH].
      exfalso. clear IH. revert d Hend Hsub.
      induction s' as [|e s' IH']; intros d Hend Hsub.
      * simpl in Hend. now rewrite (sub_ws_char _ _ _ Hend) in Hsub.
      * destruct (isspace d) eqn:Hd.
        -- rewrite (sub_ws_ws _ _ _ Hd) in Hsub. now apply (IH' e).
        -- now rewrite (sub_ws_char _ _ _ Hd) in Hsub.
    + rewrite (sub_ws_char _ _ _ Hc). specialize (IH false Hend).
      destruct (sub_ws false (String d s')) as [|x r] eqn:Hsub; [| exact IH].
      now apply sub_ws_false_nonempty in Hsub.
Qed.

End StringFacts.

(** *** esg/utils.py: company names and cache keys *)

Section CompanyNames.
Import PyStr Shape.

Example normalize_adani_power :
  Utils.normalize_company_name "  Adani   Power " = "Adani Power".
Proof. reflexivity. Qed.

(** C10: [normalize_company_name] is idempotent, and its result never
    starts with whitespace, never ends with whitespace, and never holds two
    adjacent whitespace characters. *)
Theorem normalize_company_name_idempotent (s : string) :
  Utils.normalize_company_name (Utils.normalize_company_name s)
    = Utils.normalize_company_name s
  /\ starts_with_ws (Utils.normalize_company_name s) = false
  /\ ends_with_ws (Utils.normalize_company_name s) = false
  /\ has_adjacent_ws (Utils.normalize_company_name s) = false.
Proof.
  split; [apply normalize_idempotent |].
  rewrite normalize_as_scan. repeat split.
  - apply scan_no_leading_ws.
  - apply scan_keeps_end, rstrip_no_trailing_ws.
  - apply scan_no_adjacent_ws.
Qed.

Lemma isspace_lower_char (c : ascii) : isspace (lower_char c) = isspace c.
Proof. destruct c as [[] [] [] [] [] [] [] []]; reflexivity. Qed.

Lemma lower_app (a b : string) : lower (a +:+ b) = lower a +:+ lower b.
Proof. induction a as [|c a IH]; simpl; [reflexivity | now rewrite IH]. Qed.

Lemma lower_join (ws : list string) :
  lower (join " " ws) = join " " (lower <$> ws).
Proof.
  induction ws as [|w ws IH]; [reflexivity |].
  destruct ws as [|v ws]; [reflexivity |].
  change (join " " (w :: v :: ws)) with (w +:+ String " " (join " " (v :: ws))).
  rewrite lower_app. cbn [lower]. rewrite IH. reflexivity.
Qed.

Lemma push_word_lower (w : string) (ws : list string) :
  push_word (lower w) (lower <$> ws) = lower <$> push_word w ws.
Proof. now destruct w. Qed.

Lemma tokens_lower (s : string) :
  tokens (lower s) = (lower (fst (tokens s)), lower <$> snd (tokens s)).
Proof.
  induction s as [|c s IH]; [reflexivity |].
  cbn [lower tokens]. rewrite IH, isspace_lower_char.
  destruct (tokens s) as [w ws]. cbn [fst snd].
  destruct (isspace c); cbn [fst snd]; [| reflexivity].
  now rewrite push_word_lower.
Qed.

Lemma split_lower (s : string) : split (lower s) = lower <$> split s.
Proof.
  unfold split. rewrite tokens_lower. destruct (tokens s) as [w ws].
  apply push_word_lower.
Qed.

Lemma lower_normalize (s : string) :
  lower (Utils.normalize_company_name s) = join " " (lower <$> split s).
Proof. now rewrite normalize_as_join, lower_join. Qed.

Lemma hexdigest_length (msg : list Z) : String.length (Sha1.hexdigest msg) = 40.
Proof.
  unfold Sha1.hexdigest. destruct (Sha1.digest msg) as [[[[h0 h1] h2] h3] h4].
  reflexivity.
Qed.

(** C7: [make_cache_key] sends "Adani Power" and " adani  power" to the same
    key; every key is the prefix "esg:company:" followed by the 40
    hexadecimal digits of the SHA-1 of the lowercased normalized name; and
    two names whose whitespace-separated words agree up to case have the
    same key. *)
Theorem make_cache_key_invariant :
  Utils.make_cache_key "Adani Power" = Utils.make_cache_key " adani  power"
  /\ (forall name : string,
        Utils.make_cache_key name
          = "esg:company:" +:+
            Sha1.hexdigest (encode_utf8 (lower (Utils.normalize_company_name name)))
        /\ String.length
             (Sha1.hexdigest
                (encode_utf8 (lower (Utils.normalize_company_name name)))) = 40)
  /\ (forall a b : string,
        lower <$> split a = lower <$> split b ->
        Utils.make_cache_key a = Utils.make_cache_key b).
Proof.
  split; [vm_compute; reflexivity |]. split.
  - intros name. split; [reflexivity | apply hexdigest_length].
  - intros a b Hwords. unfold Utils.make_cache_key.
    now rewrite !lower_normalize, Hwords.
Qed.

Lemma make_cache_key_invariant_witness :
  Utils.make_cache_key "ADANI   Power " = Utils.make_cache_key "adani power".
Proof. apply (proj2 (proj2 make_cache_key_invariant)). reflexivity. Defined.

End CompanyNames.

(** *** esg/utils.py: deduplication *)

Section Deduplication.
Import Utils.

Implicit Types (seen : gset string) (entries : list Article) (k : string).

Lemma dedup_loop_filter seen entries k :
  filter (fun e => unique_key e = Some k) (dedup_loop seen entries)
  = if bool_decide (k ∈ seen) then []
    else take 1 (filter (fun e => unique_key e = Some k) entries).
Proof.
  revert seen. induction entries as [|e rest IH]; intros seen.
  { simpl. now case_bool_decide. }
  cbn [dedup_loop]. destruct (unique_key e) as [k'|] eqn:Hkey.
  - destruct (decide (k' = k)) as [->|Hne].
    + rewrite (filter_cons_True _ e rest) by exact Hkey.
      destruct (decide (k ∈ seen)) as [Hin|Hin].
      * rewrite !bool_decide_eq_true_2 by exact Hin.
        rewrite IH. now rewrite bool_decide_eq_true_2 by exact Hin.
      * rewrite !bool_decide_eq_false_2 by exact Hin.
        rewrite filter_cons_True by exact Hkey.
        rewrite IH. now rewrite bool_decide_eq_true_2 by set_solver.
    + rewrite (filter_cons_False _ e rest) by congruence.
      destruct (decide (k' ∈ seen)) as [Hin|Hin].
      * rewrite (bool_decide_eq_true_2 (k' ∈ seen)) by exact Hin. apply IH.
      * rewrite (bool_decide_eq_false_2 (k' ∈ seen)) by exact Hin.
        rewrite filter_cons_False by congruence.
        rewrite IH.
        assert (k ∈ {[k']} ∪ seen <-> k ∈ seen) as Hiff.
        { rewrite elem_of_union, elem_of_singleton.
          split; [intros [?|?]; [congruence | assumption] | auto]. }
        now rewrite (bool_decide_ext _ _ Hiff).
  - rewrite (filter_cons_False _ e rest) by congruence. apply IH.
Qed.

Lemma dedup_loop_keyed seen entries :
  Forall (fun e => is_Some (unique_key e)) (dedup_loop seen entries).
Proof.
  revert seen. induction entries as [|e rest IH]; intros seen; [constructor |].
  cbn [dedup_loop]. destruct (unique_key e) as [k|] eqn:Hkey; [| apply IH].
  case_bool_decide; [apply IH |]. constructor; [rewrite Hkey; eauto | apply IH].
Qed.

Lemma dedup_loop_sublist seen entries : sublist (dedup_loop seen entries) entries.
Proof.
  revert seen. induction entries as [|e rest IH]; intros seen; [constructor |].
  cbn [dedup_loop]. destruct (unique_key e) as [k|].
  - case_bool_decide; [apply sublist_cons, IH | apply sublist_skip, IH].
  - apply sublist_cons, IH.
Qed.

Lemma dedup_loop_unkeyed seen (pre post : list Article) (e : Article) :
  unique_key e = None ->
  dedup_loop seen (pre ++ e :: post) = dedup_loop seen (pre ++ post).
Proof.
  intros Hkey. revert seen. induction pre as [|p pre IH]; intros seen.
  - simpl. now rewrite Hkey.
  - simpl. destruct (unique_key p); [| apply IH].
    case_bool_decide; [apply IH | now rewrite IH].
Qed.

Lemma unique_key_url (e : Article) (u : string) :
  url e = Some u -> u <> EmptyString -> unique_key e = Some u.
Proof.
  intros Hu Hne. unfold unique_key. simpl. rewrite Hu. simpl.
  destruct (String.eqb_spec u EmptyString) as [|_]; [congruence | reflexivity].
Qed.

Lemma unique_key_title (e : Article) (t : string) :
  Py.truthy_str (url e) = false -> title e = Some t -> t <> EmptyString ->
  unique_key e = Some t.
Proof.
  intros Hu Ht Hne. unfold unique_key. simpl. rewrite Hu, Ht. simpl.
  destruct (String.eqb_spec t EmptyString) as [|_]; [congruence | reflexivity].
Qed.

Lemma unique_key_none (e : Article) :
  Py.truthy_str (url e) = false -> Py.truthy_str (title e) = false ->
  unique_key e = None.
Proof. intros Hu Ht. unfold unique_key. simpl. now rewrite Hu, Ht. Qed.

Lemma dedup_same_key (e1 e2 : Article) k :
  unique_key e1 = Some k -> unique_key e2 = Some k ->
  deduplicate_articles [e1; e2] = [e1].
Proof.
  intros H1 H2. unfold deduplicate_articles. cbn [dedup_loop]. rewrite H1, H2.
  rewrite bool_decide_eq_false_2 by set_solver.
  now rewrite bool_decide_eq_true_2 by set_solver.
Qed.

Example deduplicate_articles_sample :
  deduplicate_articles
    [MkArticle (Some "A") None (Some "u1") None None EmptyString;
     MkArticle (Some "B") None (Some "u1") None None EmptyString;
     MkArticle None None (Some EmptyString) None None EmptyString;
     MkArticle (Some "C") None None None None EmptyString;
     MkArticle (Some "C") None (Some EmptyString) None None EmptyString;
     MkArticle (Some "D") None (Some "C") None None EmptyString]
  = [MkArticle (Some "A") None (Some "u1") None None EmptyString;
     MkArticle (Some "C") None None None None EmptyString].
Proof. reflexivity. Qed.

(** C5: [deduplicate_articles] keeps, for each identity key (the first
    non-empty of url then title), exactly the first entry of the input that
    has it, in input order, and drops the entries that have no key.  In
    particular of two entries with the same non-empty url only the first
    survives, of two entries without url and with the same non-empty title
    only the first survives, and an entry with neither is dropped. *)
Theorem deduplicate_articles_first_occurrence :
  (forall entries k,
      filter (fun e => unique_key e = Some k) (deduplicate_articles entries)
      = take 1 (filter (fun e => unique_key e = Some k) entries))
  /\ (forall entries,
        Forall (fun e => is_Some (unique_key e)) (deduplicate_articles entries)
        /\ sublist (deduplicate_articles entries) entries)
  /\ (forall (e1 e2 : Article) (u : string),
        url e1 = Some u -> url e2 = Some u -> u <> EmptyString ->
        deduplicate_articles [e1; e2] = [e1])
  /\ (forall (e1 e2 : Article) (t : string),
        Py.truthy_str (url e1) = false -> Py.truthy_str (url e2) = false ->
        title e1 = Some t -> title e2 = Some t -> t <> EmptyString ->
        deduplicate_articles [e1; e2] = [e1])
  /\ (forall (pre post : list Article) (e : Article),
        Py.truthy_str (url e) = false -> Py.truthy_str (title e) = false ->
        deduplicate_articles (pre ++ e :: post) = deduplicate_articles (pre ++ post)).
Proof.
  repeat split.
  - intros entries k. unfold deduplicate_articles.
    rewrite dedup_loop_filter. now rewrite bool_decide_eq_false_2 by set_solver.
  - apply dedup_loop_keyed.
  - apply dedup_loop_sublist.
  - intros e1 e2 u H1 H2 Hne.
    apply (dedup_same_key e1 e2 u); now apply unique_key_url.
  - intros e1 e2 t Hu1 Hu2 H1 H2 Hne.
    apply (dedup_same_key e1 e2 t); now apply unique_key_title.
  - intros pre post e Hu Ht. apply dedup_loop_unkeyed. now apply unique_key_none.
Qed.

End Deduplication.

(** *** Sorting in descending order *)

Section SortedDesc.
Import Shape.
Context {A K : Type} (key : A -> K) (rank : K -> Z).

#[local] Abbreviation lt := (fun a b : K => (rank a <? rank b)%Z).
#[local] Abbreviation rk := (fun a : A => rank (key a)).

Lemma insert_desc_perm (x : A) (l : list A) :
  Permutation (Py.insert_desc key lt x l) (x :: l).
Proof.
  induction l as [|y l IH]; simpl; [reflexivity |].
  destruct (rank (key x) <? rank (key y))%Z; [| reflexivity].
  rewrite IH. apply perm_swap.
Qed.

Lemma sorted_desc_perm (l : list A) : Permutation (Py.sorted_desc key lt l) l.
Proof.
  induction l as [|x l IH]; simpl; [reflexivity |].
  rewrite insert_desc_perm. now constructor.
Qed.

Lemma insert_desc_descending (x : A) (l : list A) :
  descending rk l -> descending rk (Py.insert_desc key lt x l).
Proof.
  unfold descending. induction l as [|y l IH]; intros Hs; simpl.
  - repeat constructor.
  - inversion Hs as [|? ? Hl Hy]; subst.
    destruct (rank (key x) <? rank (key y))%Z eqn:Hlt.
    + apply Z.ltb_lt in Hlt. constructor; [now apply IH |].
      rewrite Forall_forall in *. intros z Hz.
      rewrite insert_desc_perm in Hz. apply elem_of_cons in Hz as [->|Hz]; [lia |].
      now apply Hy.
    + apply Z.ltb_ge in Hlt. constructor; [exact Hs |].
      constructor; [lia |].
      rewrite Forall_forall in *. intros z Hz. specialize (Hy z Hz). lia.
Qed.

Lemma sorted_desc_descending (l : list A) : descending rk (Py.sorted_desc key lt l).
Proof.
  induction l as [|x l IH]; simpl; [constructor |].
  now apply insert_desc_descending.
Qed.

Lemma insert_desc_stable (x : A) (l : list A) (t : Z) :
  filter (fun a => rank (key a) = t) (Py.insert_desc key lt x l)
  = filter (fun a => rank (key a) = t) (x :: l).
Proof.
  induction l as [|y l IH]; simpl; [reflexivity |].
  destruct (rank (key x) <? rank (key y))%Z eqn:Hlt; [| reflexivity].
  apply Z.ltb_lt in Hlt.
  destruct (decide (rank (key y) = t)) as [Hy|Hy].
  - rewrite (filter_cons_True _ y) by exact Hy. rewrite IH.
    rewrite (filter_cons_False _ x) by lia.
    rewrite (filter_cons_False _ x) by lia.
    now rewrite filter_cons_True by exact Hy.
  - rewrite (filter_cons_False _ y) by exact Hy. rewrite IH.
    destruct (decide (rank (key x) = t)) as [Hx|Hx].
    + rewrite !(filter_cons_True _ x) by exact Hx.
      now rewrite filter_cons_False by exact Hy.
    + rewrite !(filter_cons_False _ x) by exact Hx.
      now rewrite filter_cons_False by exact Hy.
Qed.

Lemma sorted_desc_stable (l : list A) :
  stable_descending rk l (Py.sorted_desc key lt l).
Proof.
  split; [apply sorted_desc_perm |]. split; [apply sorted_desc_descending |].
  intros t. induction l as [|x l IH]; simpl; [reflexivity |].
  rewrite insert_desc_stable.
  destruct (decide (rank (key x) = t)) as [Hx|Hx].
  - rewrite !(filter_cons_True _ x) by exact Hx. now rewrite IH.
  - rewrite !(filter_cons_False _ x) by exact Hx. exact IH.
Qed.

Lemma descending_take (n : nat) (l : list A) :
  descending rk l -> descending rk (take n l).
Proof.
  unfold descending. revert n. induction l as [|x l IH]; intros [|n] Hs; simpl;
    try constructor.
  - inversion Hs; subst. now apply IH.
  - inversion Hs as [|? ? _ Hx]; subst.
    rewrite Forall_forall in *. intros z Hz. apply Hx.
    eapply (subseteq_take n l); eauto.
Qed.

End SortedDesc.

(** *** esg/utils.py: the latest entries *)

Section TakeLatest.
Import Shape.

Lemma take_upto_nonneg {A : Type} (limit : Z) (l : list A) :
  (0 <= limit)%Z -> Py.take_upto limit l = take (Z.to_nat limit) l.
Proof. intros Hl. unfold Py.take_upto. now rewrite (proj2 (Z.leb_le 0 limit) Hl). Qed.

(** C6, amended: for every non-negative limit and every input whose
    [published_at] values compare with one another (all naive or all aware),
    [take_latest] returns at most [limit] entries, in descending order of
    [published_at]; they are the first [limit] entries of the input sorted in
    descending order with entries of equal [published_at] kept in input
    order. *)
Theorem take_latest_sorted_stable (entries : list Article) (limit : Z) :
  (0 <= limit)%Z ->
  Utils.comparable_keys (Utils.latest_key <$> entries) = true ->
  exists out sorted_all,
    Utils.take_latest entries limit = Ok out
    /\ (Z.of_nat (length out) <= limit)%Z
    /\ descending published_rank out
    /\ stable_descending published_rank entries sorted_all
    /\ out = take (Z.to_nat limit) sorted_all.
Proof.
  intros Hlimit Hcmp.
  exists (take (Z.to_nat limit) (Py.sorted_desc Utils.latest_key Utils.dt_ltb entries)).
  exists (Py.sorted_desc Utils.latest_key Utils.dt_ltb entries).
  pose proof (sorted_desc_stable Utils.latest_key Utils.instant entries) as Hstable.
  split; [| split; [| split; [| split]]].
  - unfold Utils.take_latest. rewrite Hcmp. now rewrite take_upto_nonneg.
  - rewrite length_take. lia.
  - apply (descending_take Utils.latest_key Utils.instant). apply Hstable.
  - exact Hstable.
  - reflexivity.
Qed.

Lemma take_latest_sorted_stable_witness :
  exists out sorted_all,
    Utils.take_latest
      [Sample.article "a" (Sample.aware 10); Sample.article "b" (Sample.aware 30);
       Sample.article "c" (Sample.aware 30); Sample.article "d" (Sample.aware 20)] 3
    = Ok out
    /\ (Z.of_nat (length out) <= 3)%Z
    /\ descending published_rank out
    /\ stable_descending published_rank
         [Sample.article "a" (Sample.aware 10); Sample.article "b" (Sample.aware 30);
          Sample.article "c" (Sample.aware 30); Sample.article "d" (Sample.aware 20)]
         sorted_all
    /\ out = take (Z.to_nat 3) sorted_all.
Proof. apply take_latest_sorted_stable; [lia | reflexivity]. Defined.

Example take_latest_ties :
  Utils.take_latest
    [Sample.article "a" (Sample.aware 10); Sample.article "b" (Sample.aware 30);
     Sample.article "c" (Sample.aware 30); Sample.article "d" (Sample.aware 20)] 3
  = Ok [Sample.article "b" (Sample.aware 30); Sample.article "c" (Sample.aware 30);
        Sample.article "d" (Sample.aware 20)].
Proof. reflexivity. Qed.

(** With the limit -1 the slice drops the last entry only: two entries come
    back, which is more than the limit. *)
Lemma take_latest_negative_limit :
  Utils.take_latest
    [Sample.article "a" (Sample.aware 10); Sample.article "b" (Sample.aware 30);
     Sample.article "c" (Sample.aware 20)] (-1)
  = Ok [Sample.article "b" (Sample.aware 30); Sample.article "c" (Sample.aware 20)]
  /\ ~ (Z.of_nat (length [Sample.article "b" (Sample.aware 30);
                          Sample.article "c" (Sample.aware 20)]) <= -1)%Z.
Proof. split; [reflexivity | simpl; lia]. Qed.

(** A naive and an aware [published_at] cannot be compared: the sort raises. *)
Lemma take_latest_mixed_kinds :
  Utils.take_latest
    [Sample.article "a" (Sample.aware 10); Sample.article "b" (Sample.naive 30)] 50
  = Raise TypeError.
Proof. reflexivity. Qed.

End TakeLatest.

(** *** esg/history.py: recent searches *)

Section RecentSearches.
Import Shape History.

Implicit Types (seen : gset string) (qs : list SearchHistory).

Lemma collect_length seen (found limit : Z) qs :
  (found < limit)%Z ->
  (Z.of_nat (length (collect seen found limit qs)) <= limit - found)%Z.
Proof.
  revert seen found. induction qs as [|entry rest IH]; intros seen found Hlt.
  - simpl. lia.
  - cbn [collect]. case_bool_decide; [now apply IH |].
    destruct (limit <=? found + 1)%Z eqn:Hstop.
    + simpl. lia.
    + apply Z.leb_gt in Hstop. cbn [length].
      specialize (IH ({[PyStr.lower (company_name entry)]} ∪ seen) (found + 1)%Z Hstop).
      lia.
Qed.

Lemma collect_keys seen (found limit : Z) qs :
  NoDup ((fun r => PyStr.lower (fst r)) <$> collect seen found limit qs)
  /\ Forall (fun r => PyStr.lower (fst r) ∉ seen) (collect seen found limit qs).
Proof.
  revert seen found. induction qs as [|entry rest IH]; intros seen found.
  - split; constructor.
  - cbn [collect]. case_bool_decide as Hin; [apply IH |].
    destruct (limit <=? found + 1)%Z.
    + split; [repeat constructor; apply not_elem_of_nil | repeat constructor; exact Hin].
    + destruct (IH ({[PyStr.lower (company_name entry)]} ∪ seen) (found + 1)%Z)
        as [Hnd Hout].
      split.
      * cbn [fmap list_fmap fst]. constructor; [| exact Hnd].
        intros Hdup. apply list_elem_of_fmap in Hdup as [r [Hr Hmem]].
        rewrite Forall_forall in Hout. apply (Hout r Hmem).
        rewrite <- Hr. apply elem_of_union_l, elem_of_singleton. reflexivity.
      * constructor; [exact Hin |].
        eapply Forall_impl; [exact Hout |]. intros r Hr Hin'. apply Hr.
        now apply elem_of_union_r.
Qed.

Lemma collect_sublist seen (found limit : Z) qs :
  sublist (collect seen found limit qs)
          ((fun row => (company_name row, searched_at row)) <$> qs).
Proof.
  revert seen found. induction qs as [|entry rest IH]; intros seen found.
  - constructor.
  - cbn [collect]. case_bool_decide; [apply sublist_cons, IH |].
    cbn [fmap list_fmap]. apply sublist_skip.
    destruct (limit <=? found + 1)%Z; [apply sublist_nil_l | apply IH].
Qed.

Lemma descending_sublist {A : Type} (rank : A -> Z) (l1 l2 : list A) :
  sublist l1 l2 -> descending rank l2 -> descending rank l1.
Proof.
  unfold descending. intros Hsub. induction Hsub as [|x l1 l2 Hsub IH|x l1 l2 Hsub IH];
    intros Hs.
  - constructor.
  - inversion Hs as [|? ? Hl Hx]; subst. constructor; [now apply IH |].
    rewrite Forall_forall in *. intros z Hz. apply Hx.
    eapply elem_of_sublist; eauto.
  - inversion Hs; subst. now apply IH.
Qed.

Lemma descending_fmap {A B : Type} (f : A -> B) (rank : B -> Z) (l : list A) :
  descending (fun a => rank (f a)) l -> descending rank (f <$> l).
Proof.
  unfold descending. induction 1 as [|x l Hs IH Hx]; cbn [fmap list_fmap];
    constructor; [exact IH |]. now apply Forall_fmap.
Qed.

(** For a limit of at least one the read path returns at most
    [limit] entries, no two company names equal up to case, the most recent
    first. *)
Lemma get_recent_searches_positive_limit
    (table : list SearchHistory) (uid limit : Z) :
  (1 <= limit)%Z ->
  (Z.of_nat (length (get_recent_searches table uid limit)) <= limit)%Z
  /\ NoDup ((fun r => PyStr.lower (fst r)) <$> get_recent_searches table uid limit)
  /\ descending snd (get_recent_searches table uid limit).
Proof.
  intros Hlimit. unfold get_recent_searches.
  destruct (uid =? 0)%Z; [repeat split; simpl; try lia; constructor |].
  split; [| split].
  - pose proof (collect_length ∅ 0 limit (recent_rows table uid)). lia.
  - apply collect_keys.
  - eapply descending_sublist; [apply collect_sublist |].
    apply (descending_fmap _ snd).
    apply (sorted_desc_descending searched_at (fun z => z)).
Qed.

(** With the limit 0 every user who has searched gets one entry back. *)
Lemma get_recent_searches_limit_zero_any (table : list SearchHistory) (uid : Z) :
  uid <> 0%Z -> (exists row, row ∈ table /\ user_id row = uid) ->
  exists entry, get_recent_searches table uid 0 = [entry].
Proof.
  intros Huid [row [Hin Hrow]]. unfold get_recent_searches.
  rewrite (proj2 (Z.eqb_neq uid 0) Huid).
  destruct (recent_rows table uid) as [|first rest] eqn:Hrows.
  - exfalso. assert (row ∈ recent_rows table uid) as Hmem.
    { unfold recent_rows. rewrite (sorted_desc_perm searched_at (fun z => z)).
      apply list_elem_of_In, filter_In. split; [now apply list_elem_of_In |].
      now apply Z.eqb_eq. }
    rewrite Hrows in Hmem. now apply not_elem_of_nil in Hmem.
  - cbn [collect]. rewrite bool_decide_eq_false_2 by apply not_elem_of_empty.
    eexists. reflexivity.
Qed.

(** C9 at the limit 0: the loop appends the first row before it tests the
    limit, so one entry comes back where at most 0 are asked for. *)
Theorem get_recent_searches_limit_zero :
  History.get_recent_searches [Sample.row 7 "Adani Power" 1700000000] 7 0
  = [("Adani Power", 1700000000%Z)].
Proof. reflexivity. Qed.

End RecentSearches.

(** *** esg/services.py: scores *)

Section Scores.
Import Services.
Context `{PyLib}.

Lemma clamp_idempotent (x : float) :
  Py.fmax 0 (Py.fmin 100 (Py.fmax 0 (Py.fmin 100 x))) = Py.fmax 0 (Py.fmin 100 x).
Proof.
  unfold Py.fmin, Py.fmax. destruct (PrimFloat.ltb x 100) eqn:Hhi.
  - destruct (PrimFloat.ltb 0 x) eqn:Hlo.
    + now rewrite Hhi, Hlo.
    + reflexivity.
  - reflexivity.
Qed.

Lemma coerce_score_shape (value : json) (dflt x : float) :
  _coerce_score value dflt = Ok x ->
  x = dflt \/ exists n, x = Py.fmax 0 (Py.fmin 100 n).
Proof.
  unfold _coerce_score. destruct (Py.to_float value) as [n|e].
  - intros [= <-]. right. now exists n.
  - destruct e; intros [= <-]; now left.
Qed.

(** An axis score that was coerced with the default 0 is a fixed point of the
    coercion. *)
Lemma coerce_score_stable (value : json) (x : float) :
  _coerce_score value 0 = Ok x -> _coerce_score (JFloat x) 0 = Ok x.
Proof.
  intros Hx. unfold _coerce_score at 1. cbn [Py.to_float]. f_equal.
  destruct (coerce_score_shape _ _ _ Hx) as [-> | [n ->]];
    [reflexivity | apply clamp_idempotent].
Qed.

Lemma weighted_score_of_normalized (value_e value_s value_g : json) (e s g : float) :
  _coerce_score value_e 0 = Ok e ->
  _coerce_score value_s 0 = Ok s ->
  _coerce_score value_g 0 = Ok g ->
  _calculate_weighted_score
    [("environment", JFloat e); ("social", JFloat s); ("governance", JFloat g)]
  = Ok (Py.round2 ((4 * e + 3 * s + 3 * g) / 10)%float).
Proof.
  intros He Hs Hg. unfold _calculate_weighted_score.
  change (score_of _ "environment") with (JFloat e).
  change (score_of _ "social") with (JFloat s).
  change (score_of _ "governance") with (JFloat g).
  rewrite (coerce_score_stable _ _ He), (coerce_score_stable _ _ Hs),
    (coerce_score_stable _ _ Hg).
  reflexivity.
Qed.

(** C2: when the score set of an item has no usable [overall] (the key is
    missing, or [float] raises [TypeError] or [ValueError] on its value), the
    normalized item carries the coerced axis scores E, S, G and the overall
    score [round((4*E + 3*S + 3*G) / 10, 2)]. *)
Theorem normalized_overall_is_weighted_mean
    (fields score_set : list (string * json)) (E S G : float) :
  (let raw := default JNull (Py.dict_get "scores" fields) in
   (if Py.truthy raw then raw else JObj []) = JObj score_set) ->
  _coerce_score (score_of score_set "environment") 0 = Ok E ->
  _coerce_score (score_of score_set "social") 0 = Ok S ->
  _coerce_score (score_of score_set "governance") 0 = Ok G ->
  (Py.to_float (score_of score_set "overall") = Raise TypeError
   \/ Py.to_float (score_of score_set "overall") = Raise ValueError) ->
  exists normalized,
    _normalize_item_structure (JObj fields) = Ok normalized
    /\ scores normalized
       = MkScoreSet (JFloat E) (JFloat S) (JFloat G)
           (Py.round2 ((4 * E + 3 * S + 3 * G) / 10)%float).
Proof.
  intros Hset HE HS HG Hover. cbv zeta in Hset.
  unfold _normalize_item_structure. cbn [Py.get rbind]. rewrite Hset.
  cbn [Py.get rbind]. fold (score_of score_set "environment").
  fold (score_of score_set "social"). fold (score_of score_set "governance").
  fold (score_of score_set "overall").
  rewrite HE, HS, HG. cbn [rbind].
  rewrite (weighted_score_of_normalized _ _ _ _ _ _ HE HS HG). cbn [rbind].
  assert (_coerce_score (score_of score_set "overall")
            (Py.round2 ((4 * E + 3 * S + 3 * G) / 10)%float)
          = Ok (Py.round2 ((4 * E + 3 * S + 3 * G) / 10)%float)) as ->.
  { unfold _coerce_score. now destruct Hover as [-> | ->]. }
  cbn [rbind]. eexists. split; reflexivity.
Qed.

(** The aspects detected in a text, by keyword list. *)
Lemma detect_esg_aspects_hits (text : string) :
  Utils.detect_esg_aspects text Keywords.ESG_KEYWORDS
  = (if keyword_hit Keywords.ENVIRONMENTAL_KEYWORDS text then ["environment"] else [])
    ++ (if keyword_hit Keywords.SOCIAL_KEYWORDS text then ["social"] else [])
    ++ (if keyword_hit Keywords.GOVERNANCE_KEYWORDS text then ["governance"] else []).
Proof.
  unfold Utils.detect_esg_aspects, Keywords.ESG_KEYWORDS. cbn [List.filter snd].
  fold (keyword_hit Keywords.ENVIRONMENTAL_KEYWORDS text).
  fold (keyword_hit Keywords.SOCIAL_KEYWORDS text).
  fold (keyword_hit Keywords.GOVERNANCE_KEYWORDS text).
  destruct_hits text; reflexivity.
Qed.

(** The heuristic never raises, and its scores depend on the three hits only. *)
Lemma heuristic_item_scores (article : Article) :
  exists item,
    heuristic_item article = Ok item
    /\ scores item
       = heuristic_scores
           (keyword_hit Keywords.ENVIRONMENTAL_KEYWORDS (heuristic_text article))
           (keyword_hit Keywords.SOCIAL_KEYWORDS (heuristic_text article))
           (keyword_hit Keywords.GOVERNANCE_KEYWORDS (heuristic_text article)).
Proof.
  unfold heuristic_item. cbv zeta. rewrite detect_esg_aspects_hits.
  destruct_hits (heuristic_text article); eexists; split; reflexivity.
Qed.

Lemma rmap_total {A B : Type} (f : A -> result B) (l : list A) :
  (forall a, exists b, f a = Ok b) -> exists bs, rmap f l = Ok bs.
Proof.
  intros Hf. induction l as [|a l [bs IH]]; [now exists [] |].
  destruct (Hf a) as [b Hb]. exists (b :: bs). simpl. now rewrite Hb, IH.
Qed.


Lemma prefix_lower (k s : string) :
  String.prefix k s = true -> String.prefix (PyStr.lower k) (PyStr.lower s) = true.
Proof.
  revert s. induction k as [|a k IH]; intros s; [now destruct s |].
  destruct s as [|b s]; simpl; [discriminate |].
  destruct (ascii_dec a b) as [->|Hne]; [| discriminate].
  intros Hp. destruct (ascii_dec (PyStr.lower_char b) (PyStr.lower_char b));
    [now apply IH | congruence].
Qed.

Lemma contains_lower (k s : string) :
  PyStr.contains k s = true -> PyStr.contains (PyStr.lower k) (PyStr.lower s) = true.
Proof.
  induction s as [|c s IH]; cbn [PyStr.contains PyStr.lower]; intros Hc.
  - apply orb_true_iff in Hc as [Hp | Hf]; [| discriminate].
    apply prefix_lower in Hp. cbn [PyStr.lower] in Hp. now rewrite Hp.
  - apply orb_true_iff in Hc as [Hp | Hrest].
    + apply prefix_lower in Hp. cbn [PyStr.lower] in Hp. now rewrite Hp.
    + rewrite (IH Hrest). apply orb_true_r.
Qed.

(** C8, amended: under the heuristic path an article whose title and
    description text contains "oil spill" receives environment = 70; when
    that text holds no social and no governance keyword, it receives
    social = 0, governance = 0 and overall = round(4*70/10, 2) = 28.0. *)
Theorem heuristic_oil_spill (article : Article) :
  PyStr.contains "oil spill" (heuristic_text article) = true ->
  exists item,
    heuristic_item article = Ok item
    /\ environment (scores item) = JInt 70
    /\ (keyword_hit Keywords.SOCIAL_KEYWORDS (heuristic_text article) = false ->
        keyword_hit Keywords.GOVERNANCE_KEYWORDS (heuristic_text article) = false ->
        scores item = MkScoreSet (JInt 70) (JInt 0) (JInt 0) 28).
Proof.
  intros Hspill. destruct (heuristic_item_scores article) as [item [Hitem Hscores]].
  assert (keyword_hit Keywords.ENVIRONMENTAL_KEYWORDS (heuristic_text article) = true)
    as Henv.
  { unfold keyword_hit. apply existsb_exists. exists "oil spill". split.
    - unfold Keywords.ENVIRONMENTAL_KEYWORDS. simpl. tauto.
    - now apply (contains_lower "oil spill"). }
  exists item. rewrite Hscores, Henv. split; [exact Hitem |]. split; [reflexivity |].
  intros -> ->. reflexivity.
Qed.

End Scores.

(** *** esg/services.py: the oracle path and its fallback *)

Section Analysis.
Import Services.
Context `{PyLib}.





End Analysis.

(** *** esg/clients.py: fetching articles *)

Section Fetch.
Import Clients.
Context `{PyLib}.

Lemma omap_all_none {A B : Type} (f : A -> option B) (l : list A) :
  Forall (fun a => f a = None) l -> omap f l = [].
Proof. induction 1 as [|a l Ha _ IH]; simpl; [reflexivity | now rewrite Ha]. Qed.

Lemma parse_articles_payload_fails (response_text : string) :
  extraction_fails response_text ->
  _parse_articles_payload response_text = Raise JSONDecodeError.
Proof.
  intros [Hwhole [Hblocks Hslice]]. unfold _parse_articles_payload.
  rewrite Hwhole, (omap_all_none _ _ Hblocks).
  destruct (brace_slice (PyStr.strip response_text)) as [candidate|];
    [| reflexivity].
  now rewrite (Hslice candidate eq_refl).
Qed.



(** A raw item whose [published_at] is missing or does not parse gets the
    clock reading of [datetime.utcnow()], which carries no timezone. *)
Lemma make_article_default_naive (now : Z) (fields : list (string * json)) :
  Utils.safe_parse_datetime (default JNull (Py.dict_get "published_at" fields)) = None ->
  exists a,
    make_article now (JObj fields) = Ok a
    /\ published_at a = Some (MkDatetime now None).
Proof.
  intros Hnone. unfold make_article. cbn [Py.get rbind]. rewrite Hnone.
  eexists. split; reflexivity.
Qed.





Example fenced_blocks_sample :
  fenced_blocks "Here it is: ```json {a {b} c} ``` and ```{d}``` too" = ["{a {b} c}"; "{d}"].
Proof. reflexivity. Qed.

End Fetch.

(** *** Worked examples *)

Section Examples.
Import Sample.

Lemma normalized_overall_is_weighted_mean_witness :
  exists normalized,
    Services._normalize_item_structure (H := lib)
      (JObj [("title", JStr "Audit");
             ("scores", JObj [("environment", JInt 80); ("social", JFloat 50.5);
                              ("governance", JStr "n/a")])])
    = Ok normalized
    /\ scores normalized
       = MkScoreSet (JFloat 80) (JFloat 50.5) (JFloat 0)
           (Py.round2 ((4 * 80 + 3 * 50.5 + 3 * 0) / 10)%float).
Proof.
  apply (normalized_overall_is_weighted_mean (H := lib)
           [("title", JStr "Audit");
            ("scores", JObj [("environment", JInt 80); ("social", JFloat 50.5);
                             ("governance", JStr "n/a")])]
           [("environment", JInt 80); ("social", JFloat 50.5);
            ("governance", JStr "n/a")]);
    try reflexivity.
  left. reflexivity.
Defined.

Lemma heuristic_oil_spill_witness :
  exists item,
    Services.heuristic_item (H := lib) (article "oil spill off the coast" None) = Ok item
    /\ environment (scores item) = JInt 70
    /\ (keyword_hit Keywords.SOCIAL_KEYWORDS
          (Services.heuristic_text (article "oil spill off the coast" None)) = false ->
        keyword_hit Keywords.GOVERNANCE_KEYWORDS
          (Services.heuristic_text (article "oil spill off the coast" None)) = false ->
        scores item = MkScoreSet (JInt 70) (JInt 0) (JInt 0) 28).
Proof. apply (heuristic_oil_spill (H := lib)). reflexivity. Defined.

(** The title holds "oil spill" and the social keyword "protest": the social
    axis scores 70 as well, and the overall score is 49.0, not 28.0. *)
Lemma heuristic_oil_spill_social_hit :
  PyStr.contains "oil spill"
    (Services.heuristic_text (article "oil spill sparks protest" None)) = true
  /\ Services.heuristic_item (H := lib) (article "oil spill sparks protest" None)
     = Ok (MkItem (JStr "oil spill sparks protest") (JStr EmptyString) JNull
             (JStr "N/A") JNull JNull
             (MkScoreSet (JInt 70) (JInt 70) (JInt 0) 49)).
Proof. split; reflexivity. Qed.



(** The oracle answers with a well-formed report: its item comes back
    normalized (150 clamped to 100, the missing governance 0, the missing
    overall recomputed as round((4*80 + 3*100 + 3*0)/10, 2) = 62.0), and the
    missing overall_score is the mean of the items. *)
Example analyse_articles_oracle_result :
  Services._analyse_articles (H := lib) configured (OutputText report_text)
    [article "oil spill off the coast" None]
  = Ok (MkAnalysis
          [MkItem (JStr "Spill") (JStr EmptyString) JNull (JStr "N/A") JNull JNull
             (MkScoreSet (JFloat 80) (JFloat 100) (JFloat 0) 62)]
          (JFloat 62)).
Proof. reflexivity. Qed.


(** C4 at a response whose only article has no [published_at]: the article
    that [fetch_articles] returns carries the naive reading of
    [datetime.utcnow()], with no timezone. *)
Theorem fetch_articles_default_published_at_naive :
  Clients.fetch_articles (H := lib) configured (OutputText undated_text)
    clock "Adani Power" 50
  = Ok [MkArticle (Some "Spill") (Some EmptyString) None None
          (Some (MkDatetime (clock 0%nat) None)) "openai_web_search"].
Proof. reflexivity. Qed.

(** With one dated and one undated article the aware and the naive values
    meet in the sort of [take_latest], and [fetch_articles] raises. *)
Lemma fetch_articles_mixed_dates_raise :
  Clients.fetch_articles (H := lib) configured (OutputText mixed_text)
    clock "Adani Power" 50
  = Raise TypeError.
Proof. reflexivity. Qed.

End Examples.

(** ** Part III.  Further properties of the code *)

(** *** esg/utils.py *)

Section FurtherUtils.
Import PyStr Shape Utils.
Context `{PyLib}.

(** [normalize_company_name(name)] is [' '.join(name.split())]: the words of
    the name, unchanged and in order, with one space between them; the
    normalized name has the same words. *)
Theorem normalize_company_name_join_split (name : string) :
  normalize_company_name name = join " " (split name)
  /\ Forall word (split name)
  /\ split (normalize_company_name name) = split name.
Proof.
  split; [apply normalize_as_join |]. split; [apply split_words |].
  rewrite normalize_as_join. apply split_join, split_words.
Qed.

Lemma ensure_aware_aware (dt : datetime) : is_Some (tzinfo (ensure_aware dt)).
Proof. unfold ensure_aware. destruct (tzinfo dt) eqn:Htz; [rewrite Htz |]; simpl; eauto. Qed.

Lemma ensure_aware_instant (dt : datetime) :
  instant (ensure_aware dt) = instant dt /\ wall (ensure_aware dt) = wall dt.
Proof.
  unfold ensure_aware, instant. destruct (tzinfo dt) eqn:Htz; [now rewrite Htz |].
  simpl. split; [unfold utc; lia | reflexivity].
Qed.

(** [safe_parse_datetime] never raises.  It gives [None] for a falsy value,
    for a value that is not a string and for a string the parser rejects;
    for a string the parser accepts it gives the parsed datetime made
    timezone-aware: the same wall clock and instant, a naive result read as
    UTC, an aware result unchanged. *)
Theorem safe_parse_datetime_cases :
  (forall value, Py.truthy value = false -> safe_parse_datetime value = None)
  /\ (forall value, (forall s, value <> JStr s) -> safe_parse_datetime value = None)
  /\ (forall s, parser_parse s = None -> safe_parse_datetime (JStr s) = None)
  /\ (forall s dt,
        s <> EmptyString -> parser_parse s = Some dt ->
        exists parsed,
          safe_parse_datetime (JStr s) = Some parsed
          /\ is_Some (tzinfo parsed)
          /\ wall parsed = wall dt /\ instant parsed = instant dt
          /\ (tzinfo dt = None -> tzinfo parsed = Some 0%Z)
          /\ (is_Some (tzinfo dt) -> parsed = dt)).
Proof.
  split; [| split; [| split]].
  - intros value Hfalsy. unfold safe_parse_datetime. now rewrite Hfalsy.
  - intros value Hns. unfold safe_parse_datetime.
    destruct (negb (Py.truthy value)); [reflexivity |].
    destruct value; try reflexivity. now destruct (Hns s).
  - intros s Hnone. unfold safe_parse_datetime.
    destruct (negb (Py.truthy (JStr s))); [reflexivity |]. now rewrite Hnone.
  - intros s dt Hne Hparse. exists (ensure_aware dt).
    split; [| split; [apply ensure_aware_aware | ]].
    + unfold safe_parse_datetime. cbn [Py.truthy].
      destruct (String.eqb_spec s EmptyString) as [|_]; [congruence |].
      cbn [negb]. now rewrite Hparse.
    + destruct (ensure_aware_instant dt) as [Hi Hw].
      repeat split; try assumption.
      * intros Hnaive. unfold ensure_aware. now rewrite Hnaive.
      * intros [off Hoff]. unfold ensure_aware. now rewrite Hoff.
Qed.







End FurtherUtils.

(** *** esg/utils.py and esg/clients.py: the articles that come back *)

Section FurtherArticles.
Import Shape Utils Clients.
Context `{PyLib}.

Implicit Types (seen : gset string) (entries : list Article).

Lemma dedup_loop_distinct seen entries :
  NoDup (unique_key <$> dedup_loop seen entries)
  /\ Forall (fun e => forall k, unique_key e = Some k -> k ∉ seen)
            (dedup_loop seen entries).
Proof.
  revert seen. induction entries as [|e rest IH]; intros seen.
  - split; constructor.
  - cbn [dedup_loop]. destruct (unique_key e) as [k|] eqn:Hkey; [| apply IH].
    destruct (decide (k ∈ seen)) as [Hin|Hin].
    + rewrite bool_decide_eq_true_2 by exact Hin. apply IH.
    + rewrite bool_decide_eq_false_2 by exact Hin.
      destruct (IH ({[k]} ∪ seen)) as [Hnd Hout]. split.
      * cbn [fmap list_fmap]. constructor; [| exact Hnd].
        rewrite Hkey. intros Hdup.
        apply list_elem_of_fmap in Hdup as [e' [He' Hmem]].
        rewrite Forall_forall in Hout. apply (Hout e' Hmem k); [now symmetry |].
        apply elem_of_union_l, elem_of_singleton. reflexivity.
      * constructor.
        -- intros k' Hk'. congruence.
        -- eapply Forall_impl; [exact Hout |]. intros e' He' k' Hk' Hin'.
           apply (He' k' Hk'). now apply elem_of_union_r.
Qed.

Lemma dedup_loop_fixed seen entries :
  Forall (fun e => is_Some (unique_key e)) entries ->
  NoDup (unique_key <$> entries) ->
  Forall (fun e => forall k, unique_key e = Some k -> k ∉ seen) entries ->
  dedup_loop seen entries = entries.
Proof.
  revert seen. induction entries as [|e rest IH]; intros seen Hkeyed Hnd Hout;
    [reflexivity |].
  inversion Hkeyed as [|? ? [k Hk] Hkeyed']; subst.
  inversion Hout as [|? ? He Hout']; subst.
  cbn [fmap list_fmap] in Hnd. apply NoDup_cons in Hnd as [Hfresh Hnd'].
  cbn [dedup_loop]. rewrite Hk.
  rewrite bool_decide_eq_false_2 by (now apply He). f_equal.
  apply IH; [exact Hkeyed' | exact Hnd' |].
  rewrite Forall_forall in *. intros e' He' k' Hk' Hin'.
  apply elem_of_union in Hin' as [Hin' | Hin'].
  - apply elem_of_singleton in Hin'. subst k'. apply Hfresh.
    rewrite Hk, <- Hk'. apply list_elem_of_fmap. eauto.
  - now apply (Hout' e' He' k').
Qed.

(** [deduplicate_articles] is idempotent, and the identity keys of the
    entries it returns are pairwise distinct. *)
Theorem deduplicate_articles_idempotent entries :
  deduplicate_articles (deduplicate_articles entries) = deduplicate_articles entries
  /\ NoDup (unique_key <$> deduplicate_articles entries).
Proof.
  unfold deduplicate_articles. destruct (dedup_loop_distinct ∅ entries) as [Hnd Hout].
  split; [| exact Hnd].
  apply dedup_loop_fixed; [apply dedup_loop_keyed | exact Hnd |].
  apply Forall_forall. intros e _ k _. apply not_elem_of_empty.
Qed.

(** When the limit is at least the number of entries and their dates compare,
    [take_latest] drops nothing: it returns the entries reordered, latest
    first. *)
Theorem take_latest_keeps_all entries (limit : Z) :
  comparable_keys (latest_key <$> entries) = true ->
  (Z.of_nat (length entries) <= limit)%Z ->
  exists out,
    take_latest entries limit = Ok out
    /\ Permutation out entries
    /\ descending published_rank out.
Proof.
  intros Hcmp Hlimit.
  pose proof (sorted_desc_stable latest_key instant entries) as [Hperm [Hdesc _]].
  exists (Py.sorted_desc latest_key dt_ltb entries). split; [| split; assumption].
  unfold take_latest. rewrite Hcmp. f_equal.
  rewrite take_upto_nonneg by lia. apply take_ge.
  assert (length (Py.sorted_desc latest_key dt_ltb entries) = length entries)
    as Hlen by exact (Permutation_length Hperm).
  lia.
Qed.



End FurtherArticles.

(** *** esg/clients.py: extracting the payload *)

Section FurtherPayload.
Import PyStr Clients.
Context `{PyLib}.






Lemma find_get (c : ascii) (s : string) (i : nat) :
  find c s = Some i -> String.get i s = Some c.
Proof.
  revert i. induction s as [|d s IH]; intros i; [discriminate |]. simpl.
  destruct (Ascii.eqb_spec c d) as [->|Hne].
  - now intros [= <-].
  - destruct (find c s) as [j|]; [| discriminate]. intros [= <-]. simpl. now apply IH.
Qed.

Lemma rfind_get (c : ascii) (s : string) (i : nat) :
  rfind c s = Some i -> String.get i s = Some c.
Proof.
  revert i. induction s as [|d s IH]; intros i; [discriminate |]. simpl.
  destruct (rfind c s) as [j|].
  - intros [= <-]. simpl. now apply IH.
  - destruct (Ascii.eqb_spec c d) as [->|Hne]; [| discriminate]. now intros [= <-].
Qed.

Lemma close_at_last (s body rest : string) :
  close_at s = Some (body, rest) ->
  exists n, String.get n body = Some "}"%char /\ String.get (S n) body = None.
Proof.
  revert body rest. induction s as [|c s IH]; intros body rest; [discriminate |].
  cbn [close_at].
  destruct (if Ascii.eqb c "}" then strip_prefix FENCE (lstrip s) else None)
    as [after|] eqn:Hclose.
  - intros [= <- <-]. exists 0. split; [| reflexivity].
    destruct (Ascii.eqb_spec c "}") as [->|]; [reflexivity | discriminate].
  - destruct (close_at s) as [[body' rest']|]; [| discriminate].
    intros [= <- <-]. destruct (IH _ _ eq_refl) as [n [Hn Hend]].
    exists (S n). split; assumption.
Qed.

Lemma match_here_braced (s block rest : string) :
  match_here s = Some (block, rest) -> braced block.
Proof.
  unfold match_here. destruct (strip_prefix FENCE s) as [s1|]; [| discriminate].
  destruct (lstrip (default s1 (strip_prefix "json" s1))) as [|c s4]; [discriminate |].
  destruct (Ascii.eqb_spec c "{") as [->|]; [| discriminate].
  destruct (close_at s4) as [[body after]|] eqn:Hclose; [| discriminate].
  intros [= <- <-]. destruct (close_at_last _ _ _ Hclose) as [n [Hn Hend]].
  exists (S n). repeat split; assumption.
Qed.

Lemma findall_from_braced (skip : nat) (s : string) :
  Forall braced (findall_from skip s).
Proof.
  revert skip. induction s as [|c s IH]; intros skip; [constructor |].
  cbn [findall_from]. destruct skip as [|k]; [| apply IH].
  destruct (match_here (String c s)) as [[block rest]|] eqn:Hmatch; [| apply IH].
  constructor; [eapply match_here_braced, Hmatch | apply IH].
Qed.

(** Every candidate that the second and the third strategy hand to
    [json.loads] starts with an opening brace and ends with a closing one. *)
Theorem extraction_candidates_braced (text : string) :
  Forall braced (fenced_blocks text)
  /\ (forall candidate, brace_slice text = Some candidate -> braced candidate).
Proof.
  split; [apply findall_from_braced |].
  intros candidate. unfold brace_slice.
  destruct (find "{" text) as [start|] eqn:Hstart; [| discriminate].
  destruct (rfind "}" text) as [stop|] eqn:Hstop; [| discriminate].
  destruct (start <? stop)%nat eqn:Hlt; [| discriminate].
  apply Nat.ltb_lt in Hlt. intros [= <-]. unfold slice.
  exists (stop - start). split; [| split].
  - rewrite substring_correct1 by lia. now apply find_get.
  - rewrite substring_correct1 by lia.
    replace (stop - start + start) with stop by lia. now apply rfind_get.
  - apply substring_correct2. lia.
Qed.

End FurtherPayload.

(** *** Sorting with any comparison *)

Section SortedAny.
Context {A K : Type} (key : A -> K) (lt : K -> K -> bool).

Lemma insert_desc_perm_any (x : A) (l : list A) :
  Permutation (Py.insert_desc key lt x l) (x :: l).
Proof.
  induction l as [|y l IH]; simpl; [reflexivity |].
  destruct (lt (key x) (key y)); [| reflexivity].
  rewrite IH. apply perm_swap.
Qed.

Lemma sorted_desc_perm_any (l : list A) : Permutation (Py.sorted_desc key lt l) l.
Proof.
  induction l as [|x l IH]; simpl; [reflexivity |].
  rewrite insert_desc_perm_any. now constructor.
Qed.

Lemma insert_desc_sublist (x : A) (l : list A) :
  sublist l (Py.insert_desc key lt x l).
Proof.
  induction l as [|y l IH]; simpl; [apply sublist_nil_l |].
  destruct (lt (key x) (key y)); [apply sublist_skip, IH | apply sublist_cons].
  reflexivity.
Qed.

Lemma insert_desc_before (x b : A) (l : list A) :
  b ∈ l -> lt (key x) (key b) = false ->
  sublist [x; b] (Py.insert_desc key lt x l).
Proof.
  induction l as [|y l IH]; intros Hin Hnot; [now apply elem_of_nil in Hin |].
  simpl. destruct (lt (key x) (key y)) eqn:Hlt.
  - apply elem_of_cons in Hin as [-> | Hin]; [congruence |].
    apply sublist_cons. now apply IH.
  - apply sublist_skip. now apply singleton_sublist_l.
Qed.

(** The sort keeps the input order of two entries unless the first is
    strictly below the second. *)
Lemma sorted_desc_keeps_order (l : list A) (a b : A) :
  sublist [a; b] l -> lt (key a) (key b) = false ->
  sublist [a; b] (Py.sorted_desc key lt l).
Proof.
  induction l as [|x l IH]; intros Hsub Hnot.
  - apply sublist_nil_r in Hsub. discriminate.
  - cbn [Py.sorted_desc]. apply sublist_cons_r in Hsub as [Hsub | [l' [Heq Hsub]]].
    + etransitivity; [apply IH; assumption | apply insert_desc_sublist].
    + injection Heq as <- <-. apply insert_desc_before; [| exact Hnot].
      rewrite sorted_desc_perm_any. now apply singleton_sublist_l.
Qed.

(** On keys among which [lt] is asymmetric and its negation transitive, the
    sort returns a list in which no entry is below a later one. *)
Context (P : K -> Prop).
Hypothesis lt_asym : forall a b, P a -> P b -> lt a b = true -> lt b a = false.
Hypothesis lt_chain :
  forall a b c, P a -> P b -> P c -> lt a b = false -> lt b c = false -> lt a c = false.

Lemma insert_desc_sorted_any (x : A) (l : list A) :
  P (key x) -> Forall (fun a => P (key a)) l ->
  StronglySorted (fun a b => lt (key a) (key b) = false) l ->
  StronglySorted (fun a b => lt (key a) (key b) = false) (Py.insert_desc key lt x l).
Proof using lt_asym lt_chain.
  intros Px. induction l as [|y l IH]; intros HP Hs; simpl.
  - repeat constructor.
  - inversion Hs as [|? ? Hl Hy]; subst. inversion HP as [|? ? Py HP']; subst.
    destruct (lt (key x) (key y)) eqn:Hlt.
    + constructor; [now apply IH |].
      rewrite Forall_forall in *. intros z Hz.
      rewrite insert_desc_perm_any in Hz.
      apply elem_of_cons in Hz as [-> | Hz]; [now apply lt_asym | now apply Hy].
    + constructor; [exact Hs |]. constructor; [exact Hlt |].
      rewrite Forall_forall in *. intros z Hz.
      apply (lt_chain _ (key y)); auto.
Qed.

Lemma sorted_desc_sorted_any (l : list A) :
  Forall (fun a => P (key a)) l ->
  StronglySorted (fun a b => lt (key a) (key b) = false) (Py.sorted_desc key lt l).
Proof using lt_asym lt_chain.
  induction l as [|x l IH]; intros HP; simpl; [constructor |].
  inversion HP; subst. apply insert_desc_sorted_any; auto.
  eapply Forall_forall. intros z Hz. rewrite sorted_desc_perm_any in Hz.
  rewrite Forall_forall in *. auto.
Qed.

End SortedAny.

(** *** esg/services.py: score coercion and normalized items *)

Section FurtherScores.
Import Services.
Context `{PyLib}.

Lemma rbind_ok {A B : Type} (r : result A) (k : A -> result B) (b : B) :
  rbind r k = Ok b -> exists a, r = Ok a /\ k a = Ok b.
Proof. destruct r as [a|e]; simpl; [eauto | discriminate]. Qed.


Lemma rmap_Forall2 {A B : Type} (f : A -> result B) (l : list A) (bs : list B) :
  rmap f l = Ok bs -> Forall2 (fun a b => f a = Ok b) l bs.
Proof.
  revert bs. induction l as [|a l IH]; simpl; intros bs Hbs.
  - injection Hbs as <-. constructor.
  - apply rbind_ok in Hbs as [b [Hb Hbs]].
    apply rbind_ok in Hbs as [bs' [Hbs' Hbs]]. injection Hbs as <-.
    constructor; auto.
Qed.


Lemma to_float_raises (value : json) (e : exn) :
  Py.to_float value = Raise e ->
  e = TypeError \/ e = ValueError \/ (e = OverflowError /\ exists z, value = JInt z).
Proof.
  destruct value as [|b|z|f|s|l|items]; simpl; try (intros [= <-]; tauto);
    try discriminate.
  - unfold Py.float_of_int.
    destruct (binary_normalize prec emax z 0 false); try discriminate.
    intros [= <-]. right. right. eauto.
  - destruct (float_of_str s); [discriminate | intros [= <-]; tauto].
Qed.

Lemma clamp_in_score_range (n : float) : in_score_range (Py.fmax 0 (Py.fmin 100 n)).
Proof.
  unfold in_score_range, Py.fmin, Py.fmax. destruct (PrimFloat.ltb n 100) eqn:Hhi.
  - destruct (PrimFloat.ltb 0 n) eqn:Hlo; [right; right; now split | now left].
  - right. now left.
Qed.

(** [_coerce_score] returns a score between 0 and 100 for every value that
    [float()] accepts (a NaN becomes 100), returns the default when [float()]
    raises [TypeError] or [ValueError], and raises only on an integer too
    large for a float, with [OverflowError]. *)
Theorem coerce_score_cases (value : json) (dflt : float) :
  match _coerce_score value dflt with
  | Ok x =>
      (exists n, Py.to_float value = Ok n /\ x = Py.fmax 0 (Py.fmin 100 n)
                 /\ in_score_range x
                 /\ (PrimFloat.eqb n n = false -> x = 100%float))
      \/ ((Py.to_float value = Raise TypeError \/ Py.to_float value = Raise ValueError)
          /\ x = dflt)
  | Raise e =>
      e = OverflowError /\ exists z, value = JInt z /\ Py.float_of_int z = Raise e
  end.
Proof.
  unfold _coerce_score. destruct (Py.to_float value) as [n|e] eqn:Hfloat.
  - left. exists n. repeat split; [apply clamp_in_score_range |].
    intros Hnan. unfold Py.fmin, Py.fmax.
    assert (PrimFloat.ltb n 100 = false) as ->; [| reflexivity].
    rewrite FloatAxioms.ltb_spec. rewrite FloatAxioms.eqb_spec in Hnan.
    destruct (Prim2SF n) as [s|s| |s m e]; try discriminate; try reflexivity.
    + now destruct s.
    + exfalso. revert Hnan. unfold SFeqb, SFcompare. destruct s.
      * rewrite Z.compare_refl, Pos.compare_cont_refl. discriminate.
      * rewrite Z.compare_refl, Pos.compare_cont_refl. discriminate.
  - destruct (to_float_raises _ _ Hfloat) as [-> | [-> | [-> [z ->]]]].
    + right. split; [now left | reflexivity].
    + right. split; [now right | reflexivity].
    + split; [reflexivity |]. exists z. split; [reflexivity | exact Hfloat].
Qed.





End FurtherScores.

(** *** esg/services.py: normalized items, the oracle path, the heuristic path *)

Section FurtherAnalysis.
Import Services.
Context `{PyLib}.




Lemma execute_prompt_ok (cfg : Settings) (r : reply) (text : string) :
  _execute_openai_prompt cfg r = Ok text ->
  _openai_available cfg = true /\ r = OutputText text.
Proof.
  unfold _execute_openai_prompt. destruct (_openai_available cfg); [| discriminate].
  destruct r; simpl; try discriminate. now intros [= ->].
Qed.

(** The report that the oracle path returns has one normalized item for each
    entry of the [items] array of the decoded response (none when the key is
    missing), reordered by the sort only: an item that stood before another
    one and is not below it stays before it.  A truthy [overall_score] of
    the response is returned verbatim, whatever its type; a falsy one other
    than [null] gives 0; a missing or [null] one gives the rounded mean of the
    items' overall scores. *)
Theorem analyse_with_openai_report (cfg : Settings) (r : reply)
    (articles : list Article) (analysis : Analysis) :
  _analyse_with_openai cfg r articles = Ok analysis ->
  exists text fields raw normalized,
    r = OutputText text
    /\ json_loads text = Some (JObj fields)
    /\ Py.iter (default (JArr []) (Py.dict_get "items" fields)) = Ok raw
    /\ Forall2 (fun item it => _normalize_item_structure item = Ok it) raw normalized
    /\ Permutation (items analysis) normalized
    /\ (forall x y, sublist [x; y] normalized -> not_below x y ->
          sublist [x; y] (items analysis))
    /\ (forall v, Py.dict_get "overall_score" fields = Some v ->
          Py.truthy v = true -> overall_score analysis = v)
    /\ (forall v, Py.dict_get "overall_score" fields = Some v ->
          v <> JNull -> Py.truthy v = false -> overall_score analysis = JInt 0)
    /\ (default JNull (Py.dict_get "overall_score" fields) = JNull ->
        let mean := _compute_overall_score (items analysis) in
        overall_score analysis = if Py.truthy (JFloat mean) then JFloat mean else JInt 0).
Proof.
  unfold _analyse_with_openai. intros Hok.
  apply rbind_ok in Hok as [text [Hexec Hok]].
  apply execute_prompt_ok in Hexec as [_ ->].
  apply rbind_ok in Hok as [parsed [Hdec Hok]].
  destruct (json_loads text) as [v|] eqn:Hloads; [| discriminate].
  injection Hdec as ->.
  apply rbind_ok in Hok as [raw_items [Hitems Hok]].
  destruct parsed as [| | | | | |fields]; try discriminate.
  cbn [Py.get] in Hitems. injection Hitems as <-.
  apply rbind_ok in Hok as [raw [Hraw Hok]].
  apply rbind_ok in Hok as [normalized [Hnorm Hok]].
  cbn [Py.get rbind] in Hok. injection Hok as <-.
  cbn [items overall_score].
  exists text, fields, raw, normalized.
  split; [reflexivity |]. split; [exact Hloads |]. split; [exact Hraw |].
  split; [now apply rmap_Forall2 |].
  split; [apply sorted_desc_perm_any |].
  split; [intros x y Hsub Hnb; now apply sorted_desc_keeps_order |].
  split; [| split].
  - intros v Hv Ht. rewrite Hv. cbn [default].
    destruct v; try (simpl in Ht; discriminate); cbv beta iota delta [id]; now rewrite Ht.
  - intros v Hv Hne Ht. rewrite Hv. cbn [default].
    destruct v; try congruence; cbv beta iota delta [id]; now rewrite Ht.
  - intros ->. reflexivity.
Qed.

Lemma heuristic_item_overall (article : Article) (item : AnalysedItem) :
  heuristic_item article = Ok item ->
  (environment (scores item) = JInt 0 \/ environment (scores item) = JInt 70)
  /\ (social (scores item) = JInt 0 \/ social (scores item) = JInt 70)
  /\ (governance (scores item) = JInt 0 \/ governance (scores item) = JInt 70)
  /\ In (overall (scores item)) heuristic_overalls.
Proof.
  intros Hitem. destruct (heuristic_item_scores article) as [item' [Hitem' Hscores]].
  rewrite Hitem in Hitem'. injection Hitem' as <-. rewrite Hscores.
  destruct_hits (heuristic_text article); cbn [heuristic_scores environment social governance overall];
    (split; [tauto |]); (split; [tauto |]); (split; [tauto |]);
    vm_compute; tauto.
Qed.

Lemma heuristic_overalls_asym (a b : float) :
  In a heuristic_overalls -> In b heuristic_overalls ->
  PrimFloat.ltb a b = true -> PrimFloat.ltb b a = false.
Proof.
  unfold heuristic_overalls. simpl. intros Ha Hb.
  repeat (destruct Ha as [<- | Ha]); try contradiction;
    repeat (destruct Hb as [<- | Hb]); try contradiction;
    vm_compute; congruence.
Qed.

Lemma heuristic_overalls_chain (a b c : float) :
  In a heuristic_overalls -> In b heuristic_overalls -> In c heuristic_overalls ->
  PrimFloat.ltb a b = false -> PrimFloat.ltb b c = false -> PrimFloat.ltb a c = false.
Proof.
  unfold heuristic_overalls. simpl. intros Ha Hb Hc.
  repeat (destruct Ha as [<- | Ha]); try contradiction;
    repeat (destruct Hb as [<- | Hb]); try contradiction;
    repeat (destruct Hc as [<- | Hc]); try contradiction;
    vm_compute; congruence.
Qed.

Lemma heuristic_items_built (articles : list Article) :
  exists built,
    rmap heuristic_item articles = Ok built
    /\ Forall2 (fun article item => heuristic_item article = Ok item) articles built
    /\ Forall (fun item =>
                 (environment (scores item) = JInt 0 \/ environment (scores item) = JInt 70)
                 /\ (social (scores item) = JInt 0 \/ social (scores item) = JInt 70)
                 /\ (governance (scores item) = JInt 0 \/ governance (scores item) = JInt 70)
                 /\ In (overall (scores item)) heuristic_overalls)
              built.
Proof.
  destruct (rmap_total heuristic_item articles) as [built Hbuilt].
  { intros a. destruct (heuristic_item_scores a) as [item [Hitem _]]. eauto. }
  exists built. split; [exact Hbuilt |]. apply rmap_Forall2 in Hbuilt.
  split; [exact Hbuilt |].
  induction Hbuilt as [|a it l l' Hit _ IH]; constructor; [| exact IH].
  eapply heuristic_item_overall, Hit.
Qed.

Lemma sort_items_heuristic (built : list AnalysedItem) :
  Forall (fun item => In (overall (scores item)) heuristic_overalls) built ->
  StronglySorted not_below (_sort_items_by_score built).
Proof.
  intros Hall.
  apply (sorted_desc_sorted_any _ _ (fun k => In k heuristic_overalls));
    [apply heuristic_overalls_asym | apply heuristic_overalls_chain | exact Hall].
Qed.


(** The items of the heuristic path are in descending order of their overall
    score, items of equal score in the order of their articles. *)
Theorem analyse_with_heuristics_sorted (articles : list Article) :
  exists analysis built,
    _analyse_with_heuristics articles = Ok analysis
    /\ Forall2 (fun article item => heuristic_item article = Ok item) articles built
    /\ StronglySorted not_below (items analysis)
    /\ (forall x y, sublist [x; y] built -> not_below x y ->
          sublist [x; y] (items analysis)).
Proof.
  unfold _analyse_with_heuristics.
  destruct (heuristic_items_built articles) as [built [Hbuilt [Hall Hscores]]].
  rewrite Hbuilt. cbn [rbind]. eexists _, built. split; [reflexivity |].
  cbn [items]. split; [exact Hall |]. split.
  - apply sort_items_heuristic. eapply Forall_impl; [exact Hscores |].
    intros item Hitem. apply Hitem.
  - intros x y Hsub Hnb. now apply sorted_desc_keeps_order.
Qed.

End FurtherAnalysis.

(** *** esg/services.py: building and caching the profile *)

Section FurtherProfile.
Import Services Clients ProfileService.
Context `{PyLib} `{PyDisplay}.

Lemma fetch_company_overview_total (cfg : Settings) (r : reply) (name : string) :
  exists text, _fetch_company_overview cfg r name = Ok text.
Proof.
  unfold _fetch_company_overview, _execute_openai_prompt.
  destruct (negb (_openai_available cfg)); [eauto |].
  destruct r; eauto.
Qed.






Lemma fetch_articles_none (cfg : Settings) (r : reply) (clock : nat -> Z)
    (name : string) (limit : Z) :
  (_openai_available cfg = false \/ r = CreateRaised \/ r = NoOutputText
   \/ exists text, r = OutputText text /\ extraction_fails text) ->
  fetch_articles cfg r clock name limit = Ok [].
Proof.
  unfold fetch_articles. fold (_openai_available cfg).
  intros [-> | Hr]; [reflexivity |].
  destruct (negb (_openai_available cfg)); [reflexivity |].
  destruct Hr as [-> | [-> | [text [-> Hfails]]]]; try reflexivity.
  now rewrite (parse_articles_payload_fails _ Hfails).
Qed.







Lemma get_company_esg_profile_store (self : ESGService) (cfg : Settings)
    (w : World) (store : gmap string (CompanyProfile * Z)) (name : string) :
  match get_company_esg_profile self cfg w store name with
  | (Ok (profile, false), store') =>
      Cache.get store (Utils.make_cache_key (Utils.normalize_company_name name))
        (cache_read_at w) = None
      /\ store'
         = <[Utils.make_cache_key (Utils.normalize_company_name name)
             := (profile, (cache_write_at w + cache_timeout self)%Z)]> store
  | _ => True
  end.
Proof.
  unfold get_company_esg_profile.
  destruct (Cache.get store _ (cache_read_at w)) as [cached|] eqn:Hget;
    [exact I |].
  destruct (_build_profile self cfg w (Utils.normalize_company_name name));
    [now split | exact I].
Qed.

Lemma cache_key_of_equivalent_names (a b : string) :
  PyStr.lower <$> PyStr.split a = PyStr.lower <$> PyStr.split b ->
  Utils.make_cache_key (Utils.normalize_company_name a)
  = Utils.make_cache_key (Utils.normalize_company_name b).
Proof.
  intros Hwords. unfold Utils.make_cache_key.
  now rewrite !normalize_idempotent, !lower_normalize, Hwords.
Qed.

(** A profile that was built for a name is served from the cache, unchanged
    and whatever the oracle would answer, to every search before the expiry
    for a name with the same words up to case; from the expiry on it is no
    longer served. *)
Theorem profile_cached_for_equivalent_names (self : ESGService)
    (cfg cfg' : Settings) (w w' : World) (store store' : gmap string (CompanyProfile * Z))
    (a b : string) (profile : CompanyProfile) :
  get_company_esg_profile self cfg w store a = (Ok (profile, false), store') ->
  PyStr.lower <$> PyStr.split a = PyStr.lower <$> PyStr.split b ->
  ((cache_read_at w' < cache_write_at w + cache_timeout self)%Z ->
   get_company_esg_profile self cfg' w' store' b = (Ok (profile, true), store'))
  /\ ((cache_write_at w + cache_timeout self <= cache_read_at w')%Z ->
      forall cached,
        fst (get_company_esg_profile self cfg' w' store' b) <> Ok (cached, true)).
Proof.
  intros Hfirst Hwords.
  pose proof (get_company_esg_profile_store self cfg w store a) as Hstore.
  rewrite Hfirst in Hstore. destruct Hstore as [_ ->].
  unfold get_company_esg_profile.
  rewrite <- (cache_key_of_equivalent_names a b Hwords).
  unfold Cache.get. rewrite lookup_insert_eq. split; intros Htime.
  - now rewrite (proj2 (Z.ltb_lt _ _) Htime).
  - intros cached. rewrite (proj2 (Z.ltb_ge _ _) Htime).
    destruct (_build_profile self cfg' w' _); cbn [fst]; congruence.
Qed.

(** When the web search gives no articles (the oracle is not configured, the
    request raises, the response carries no text, or no extraction strategy
    decodes it), [_build_profile] returns a profile without items, with the
    overall score 0, whatever the scoring oracle would answer: the heuristic
    path is not reached.  Without a configured oracle the overview is the
    notice that asks for the API key. *)
Theorem build_profile_without_articles (self : ESGService) (cfg : Settings)
    (w : World) (name : string) :
  (_openai_available cfg = false \/ search_reply w = CreateRaised
   \/ search_reply w = NoOutputText
   \/ exists text, search_reply w = OutputText text /\ extraction_fails text) ->
  exists text,
    _fetch_company_overview cfg (overview_reply w) name = Ok text
    /\ _build_profile self cfg w name
       = Ok (MkProfile name (Utils.isoformat (utcnow (built_at w)))
               (strftime_generated_at (utcnow (built_at w))) text
               (JInt 0) [] 0 730)
    /\ (_openai_available cfg = false ->
        text = "Overview unavailable for " +:+ name
               +:+ ". Configure OPENAI_API_KEY to enable this summary.").
Proof.
  intros Hnone.
  destruct (fetch_company_overview_total cfg (overview_reply w) name) as [text Htext].
  exists text. split; [exact Htext |]. split.
  - unfold _build_profile. rewrite Htext. cbn [rbind].
    rewrite (fetch_articles_none _ _ _ _ _ Hnone). reflexivity.
  - intros Hoff. unfold _fetch_company_overview in Htext. rewrite Hoff in Htext.
    cbn [negb] in Htext. congruence.
Qed.



End FurtherProfile.

(** *** esg/history.py and dashboard/views.py: recording a search *)

Section FurtherHistory.
Import History Repository.

Lemma sorted_desc_snoc_latest {A : Type} (key : A -> Z) (l : list A) (x : A) :
  Forall (fun y => (key y < key x)%Z) l ->
  Py.sorted_desc key Z.ltb (l ++ [x]) = x :: Py.sorted_desc key Z.ltb l.
Proof.
  induction 1 as [|y l Hy _ IH]; [reflexivity |].
  cbn [app Py.sorted_desc]. rewrite IH. cbn [Py.insert_desc].
  now rewrite (proj2 (Z.ltb_lt _ _) Hy).
Qed.

Lemma filter_user_snoc (table : list SearchHistory) (row : SearchHistory) (uid : Z) :
  List.filter (fun r => user_id r =? uid)%Z (table ++ [row])
  = List.filter (fun r => user_id r =? uid)%Z table
    ++ (if (user_id row =? uid)%Z then [row] else []).
Proof. rewrite List.filter_app. reflexivity. Qed.

(** A search that was just recorded, later than the user's earlier ones,
    heads the user's recent searches under its normalized name, for every
    limit, and hides every earlier search of a name that is equal up to
    case. *)
Theorem record_search_heads_recent (table : list SearchHistory) (uid : Z)
    (name : string) (now limit : Z) :
  uid <> 0%Z -> name <> EmptyString ->
  Forall (fun row => user_id row = uid -> (searched_at row < now)%Z) table ->
  exists rest,
    get_recent_searches (record_search table uid name now) uid limit
    = (Utils.normalize_company_name name, now) :: rest
    /\ Forall (fun entry =>
                 PyStr.lower (fst entry)
                 <> PyStr.lower (Utils.normalize_company_name name)) rest
    /\ ((limit <= 1)%Z -> rest = []).
Proof.
  intros Huid Hname Hlater. unfold get_recent_searches, record_search.
  rewrite (proj2 (Z.eqb_neq uid 0) Huid). cbn [orb].
  rewrite (proj2 (String.eqb_neq name EmptyString) Hname).
  unfold recent_rows. rewrite filter_user_snoc. cbn [user_id].
  rewrite Z.eqb_refl. rewrite sorted_desc_snoc_latest.
  - cbn [collect company_name searched_at].
    rewrite bool_decide_eq_false_2 by apply not_elem_of_empty.
    eexists. split; [reflexivity |]. split.
    + destruct (limit <=? 0 + 1)%Z; [constructor |].
      eapply Forall_impl; [apply collect_keys |]. cbv beta.
      intros entry Hout Heq. apply Hout. rewrite Heq.
      apply elem_of_union_l, elem_of_singleton. reflexivity.
    + intros Hlimit. now rewrite (proj2 (Z.leb_le limit (0 + 1)) Hlimit).
  - cbn [searched_at]. apply Forall_forall. intros row Hrow.
    apply list_elem_of_In, List.filter_In in Hrow as [Hrow Hmine].
    rewrite Forall_forall in Hlater. apply Hlater; [now apply list_elem_of_In |].
    now apply Z.eqb_eq.
Qed.

(** [record_search] stores nothing for the user id 0 or an empty name, and
    otherwise appends one row that carries the normalized name (the empty
    string when the name holds whitespace only); the recent searches of every
    other user are as before. *)
Theorem record_search_effect (table : list SearchHistory) (uid : Z)
    (name : string) (now : Z) :
  (uid = 0%Z \/ name = EmptyString -> record_search table uid name now = table)
  /\ (uid <> 0%Z -> name <> EmptyString ->
      record_search table uid name now
      = table ++ [MkSearch uid (Utils.normalize_company_name name) now]
      /\ (PyStr.split name = [] ->
          record_search table uid name now = table ++ [MkSearch uid EmptyString now]))
  /\ (forall other limit, other <> uid ->
      get_recent_searches (record_search table uid name now) other limit
      = get_recent_searches table other limit).
Proof.
  unfold record_search. split; [| split].
  - intros [-> | ->]; [reflexivity |]. now rewrite orb_true_r.
  - intros Huid Hname. rewrite (proj2 (Z.eqb_neq uid 0) Huid). cbn [orb].
    rewrite (proj2 (String.eqb_neq name EmptyString) Hname).
    split; [reflexivity |]. intros Hwords.
    now rewrite normalize_as_join, Hwords.
  - intros other limit Hother.
    destruct ((uid =? 0)%Z || String.eqb name EmptyString); [reflexivity |].
    unfold get_recent_searches, recent_rows. rewrite filter_user_snoc.
    cbn [user_id]. rewrite (proj2 (Z.eqb_neq uid other)) by congruence.
    now rewrite app_nil_r.
Qed.

End FurtherHistory.

Section FurtherViews.
Import Services ProfileService Repository Views.
Context `{PyLib} `{PyDisplay}.


End FurtherViews.

(** *** esg/history.py: what the recent searches list *)

Section FurtherRecent.
Import Shape History.

Implicit Types (seen : gset string) (qs : list SearchHistory).

(** An entry that the loop emits comes from the first row of its company
    name, up to case. *)
Lemma collect_first_row seen (found limit : Z) qs (entry : string * Z) :
  entry ∈ collect seen found limit qs ->
  exists before row after,
    qs = before ++ row :: after
    /\ entry = (company_name row, searched_at row)
    /\ Forall (fun r => PyStr.lower (company_name r) <> PyStr.lower (company_name row))
              before.
Proof.
  revert seen found. induction qs as [|e rest IH]; intros seen found Hin.
  - now apply elem_of_nil in Hin.
  - cbn [collect] in Hin. destruct (decide (PyStr.lower (company_name e) ∈ seen)) as [Hseen|Hnew].
    + rewrite bool_decide_eq_true_2 in Hin by exact Hseen.
      pose proof (proj2 (collect_keys seen found limit rest)) as Hout.
      rewrite Forall_forall in Hout. specialize (Hout entry Hin).
      destruct (IH _ _ Hin) as [before [row [after [-> [-> Hbefore]]]]].
      exists (e :: before), row, after. split; [reflexivity |]. split; [reflexivity |].
      constructor; [| exact Hbefore]. cbn [fst] in Hout. congruence.
    + rewrite bool_decide_eq_false_2 in Hin by exact Hnew.
      apply elem_of_cons in Hin as [-> | Hin].
      * exists [], e, rest. repeat split. constructor.
      * destruct (limit <=? found + 1)%Z; [now apply elem_of_nil in Hin |].
        pose proof (proj2 (collect_keys ({[PyStr.lower (company_name e)]} ∪ seen)
                             (found + 1)%Z limit rest)) as Hout.
        rewrite Forall_forall in Hout. specialize (Hout entry Hin).
        destruct (IH _ _ Hin) as [before [row [after [-> [-> Hbefore]]]]].
        exists (e :: before), row, after. split; [reflexivity |]. split; [reflexivity |].
        constructor; [| exact Hbefore]. cbn [fst] in Hout. intros Heq. apply Hout.
        rewrite <- Heq. apply elem_of_union_l, elem_of_singleton. reflexivity.
Qed.

(** The loop passes over a row only when its company name is already seen
    or listed, unless it stops at the limit. *)
Lemma collect_complete seen (found limit : Z) qs (row : SearchHistory) :
  (found < limit)%Z -> row ∈ qs ->
  PyStr.lower (company_name row) ∈ seen
  \/ (exists entry, entry ∈ collect seen found limit qs
                    /\ PyStr.lower (fst entry) = PyStr.lower (company_name row))
  \/ Z.of_nat (length (collect seen found limit qs)) = (limit - found)%Z.
Proof.
  revert seen found. induction qs as [|e rest IH]; intros seen found Hlt Hin.
  - now apply elem_of_nil in Hin.
  - cbn [collect]. destruct (decide (PyStr.lower (company_name e) ∈ seen)) as [Hseen|Hnew].
    + rewrite bool_decide_eq_true_2 by exact Hseen.
      apply elem_of_cons in Hin as [-> | Hin]; [now left | now apply IH].
    + rewrite bool_decide_eq_false_2 by exact Hnew.
      apply elem_of_cons in Hin as [-> | Hin].
      { right. left. eexists. split; [apply elem_of_cons; now left | reflexivity]. }
      destruct (limit <=? found + 1)%Z eqn:Hstop.
      { right. right. apply Z.leb_le in Hstop. simpl. lia. }
      apply Z.leb_gt in Hstop.
      destruct (IH ({[PyStr.lower (company_name e)]} ∪ seen) (found + 1)%Z Hstop Hin)
        as [Hseen | [[entry [Hentry Hkey]] | Hfull]].
      * apply elem_of_union in Hseen as [Hsame | Hseen]; [| now left].
        apply elem_of_singleton in Hsame. right. left.
        eexists. split; [apply elem_of_cons; now left | now symmetry].
      * right. left. exists entry. split; [apply elem_of_cons; now right | exact Hkey].
      * right. right. cbn [length]. lia.
Qed.

Lemma descending_app_r {A : Type} (rank : A -> Z) (l1 l2 : list A) :
  descending rank (l1 ++ l2) -> descending rank l2.
Proof.
  unfold descending. induction l1 as [|x l1 IH]; [auto |].
  cbn [app]. intros Hs. inversion Hs; subst. auto.
Qed.

Lemma recent_rows_elem (table : list SearchHistory) (uid : Z) (row : SearchHistory) :
  row ∈ recent_rows table uid <-> row ∈ table /\ user_id row = uid.
Proof.
  unfold recent_rows.
  rewrite (sorted_desc_perm searched_at (fun z => z)).
  rewrite list_elem_of_In, List.filter_In, <- list_elem_of_In, Z.eqb_eq. reflexivity.
Qed.

(** Every entry of the recent searches is a row of the user and carries the
    time of the user's latest search of that company name, up to case; for a
    limit of at least one, every company name the user searched is listed
    unless the list is full. *)
Theorem get_recent_searches_latest_per_company
    (table : list SearchHistory) (uid limit : Z) :
  (forall entry, entry ∈ get_recent_searches table uid limit ->
     (exists row, row ∈ table /\ user_id row = uid
                  /\ entry = (company_name row, searched_at row))
     /\ forall row, row ∈ table -> user_id row = uid ->
          PyStr.lower (company_name row) = PyStr.lower (fst entry) ->
          (searched_at row <= snd entry)%Z)
  /\ ((1 <= limit)%Z -> uid <> 0%Z ->
      forall row, row ∈ table -> user_id row = uid ->
        (exists entry, entry ∈ get_recent_searches table uid limit
                       /\ PyStr.lower (fst entry) = PyStr.lower (company_name row))
        \/ Z.of_nat (length (get_recent_searches table uid limit)) = limit).
Proof.
  unfold get_recent_searches. split.
  - intros entry Hin. destruct (uid =? 0)%Z; [now apply elem_of_nil in Hin |].
    apply collect_first_row in Hin as [before [first [after [Hrows [-> Hbefore]]]]].
    assert (first ∈ recent_rows table uid) as Hfirst.
    { rewrite Hrows. apply elem_of_app. right. apply elem_of_cons. now left. }
    apply recent_rows_elem in Hfirst as [Hfirst Huser]. split; [eauto |].
    intros row Hrow Hmine Hkey. cbn [fst snd] in *.
    assert (row ∈ recent_rows table uid) as Hmem by now apply recent_rows_elem.
    assert (descending searched_at (recent_rows table uid)) as Hdesc
      by exact (sorted_desc_descending searched_at (fun z => z) _).
    rewrite Hrows in Hmem, Hdesc.
    apply elem_of_app in Hmem as [Hmem | Hmem].
    + rewrite Forall_forall in Hbefore. now destruct (Hbefore row Hmem).
    + apply elem_of_cons in Hmem as [-> | Hmem]; [lia |].
      apply descending_app_r in Hdesc. unfold descending in Hdesc.
      inversion Hdesc as [|? ? _ Hall]; subst.
      rewrite Forall_forall in Hall. now apply Hall.
  - intros Hlimit Huid row Hrow Hmine.
    rewrite (proj2 (Z.eqb_neq uid 0) Huid).
    assert (row ∈ recent_rows table uid) as Hmem by now apply recent_rows_elem.
    destruct (collect_complete ∅ 0 limit _ row ltac:(lia) Hmem)
      as [Hseen | [Hlisted | Hfull]].
    + now apply elem_of_empty in Hseen.
    + now left.
    + right. lia.
Qed.

End FurtherRecent.

(** *** Worked examples of the further properties *)

Section FurtherExamples.
Import Sample SampleProfile.

Lemma take_latest_keeps_all_witness :
  exists out,
    Utils.take_latest [article "Audit" (aware 1); article "Spill" (aware 2)] 5 = Ok out
    /\ Permutation out [article "Audit" (aware 1); article "Spill" (aware 2)]
    /\ Shape.descending Shape.published_rank out.
Proof. apply take_latest_keeps_all; [reflexivity | simpl; lia]. Defined.



Lemma get_recent_searches_positive_limit_witness :
  (Z.of_nat (length (History.get_recent_searches history 7 10)) <= 10)%Z
  /\ NoDup ((fun r => PyStr.lower (fst r)) <$> History.get_recent_searches history 7 10)
  /\ Shape.descending snd (History.get_recent_searches history 7 10).
Proof. apply (get_recent_searches_positive_limit history 7 10). lia. Defined.

Lemma analyse_with_openai_report_witness :
  let analysis :=
    MkAnalysis
      [MkItem (JStr "Spill") (JStr EmptyString) JNull (JStr "N/A") JNull JNull
         (MkScoreSet (JFloat 80) (JFloat 100) (JFloat 0) 62)]
      (JFloat 62) in
  exists text fields raw normalized,
    OutputText report_text = OutputText text
    /\ json_loads (PyLib := lib) text = Some (JObj fields)
    /\ Py.iter (default (JArr []) (Py.dict_get "items" fields)) = Ok raw
    /\ Forall2 (fun item it => Services._normalize_item_structure (H := lib) item = Ok it)
         raw normalized
    /\ Permutation (items analysis) normalized
    /\ (forall x y, sublist [x; y] normalized -> not_below x y ->
          sublist [x; y] (items analysis))
    /\ (forall v, Py.dict_get "overall_score" fields = Some v ->
          Py.truthy v = true -> overall_score analysis = v)
    /\ (forall v, Py.dict_get "overall_score" fields = Some v ->
          v <> JNull -> Py.truthy v = false -> overall_score analysis = JInt 0)
    /\ (default JNull (Py.dict_get "overall_score" fields) = JNull ->
        let mean := Services._compute_overall_score (items analysis) in
        overall_score analysis = if Py.truthy (JFloat mean) then JFloat mean else JInt 0).
Proof.
  apply (analyse_with_openai_report (H := lib) configured (OutputText report_text)
           [article "oil spill off the coast" None]). reflexivity.
Defined.

Lemma profile_cached_for_equivalent_names_witness :
  ProfileService.get_company_esg_profile (H := lib) (H0 := display)
    ProfileService.default_service unconfigured later spill_store " adani  power"
  = (Ok (spill_profile, true), spill_store).
Proof.
  refine (proj1 (profile_cached_for_equivalent_names (H := lib) (H0 := display)
                   ProfileService.default_service configured unconfigured
                   one_article later (∅ : gmap string (CompanyProfile * Z))
                   spill_store "Adani Power" " adani  power" spill_profile _ _) _).
  - vm_compute. reflexivity.
  - reflexivity.
  - reflexivity.
Defined.

Lemma build_profile_without_articles_witness :
  exists text,
    ProfileService._fetch_company_overview unconfigured CreateRaised "Adani Power"
    = Ok text
    /\ ProfileService._build_profile (H := lib) (H0 := display)
         ProfileService.default_service unconfigured offline "Adani Power"
       = Ok (MkProfile "Adani Power"
               (Utils.isoformat (H := lib) (Clients.utcnow (built_at offline)))
               (strftime_generated_at (PyDisplay := display)
                  (Clients.utcnow (built_at offline)))
               text (JInt 0) [] 0 730)
    /\ (Services._openai_available unconfigured = false ->
        text = "Overview unavailable for " +:+ "Adani Power"
               +:+ ". Configure OPENAI_API_KEY to enable this summary.").
Proof.
  apply (build_profile_without_articles (H := lib) (H0 := display)
           ProfileService.default_service unconfigured offline "Adani Power").
  left. reflexivity.
Defined.


Lemma record_search_heads_recent_witness :
  exists rest,
    History.get_recent_searches
      (Repository.record_search history 7 " adani  power" 3) 7 10
    = (Utils.normalize_company_name " adani  power", 3%Z) :: rest
    /\ Forall (fun entry =>
                 PyStr.lower (fst entry)
                 <> PyStr.lower (Utils.normalize_company_name " adani  power")) rest
    /\ ((10 <= 1)%Z -> rest = []).
Proof.
  apply (record_search_heads_recent history 7 " adani  power" 3 10).
  - lia.
  - discriminate.
  - repeat constructor; simpl; lia.
Defined.

End FurtherExamples.
